(** * FinMan: the transaction controllers

    A shallow embedding of [backend/controllers/transactionController.js]
    (the six handlers routed by [backend/Routers/Transactions.js]) together
    with the properties its specification states about them.

    The two Mongoose collections are finite maps from the hexadecimal form of
    a document's [_id] to the document; a handler is a function from the
    request and the store to a response and the store afterwards.  The body
    of a handler's [try] block is a computation that either throws or
    answers; the handler itself adds the [catch] block.

    The schema files ([models/TransactionModel.js], [models/UserSchema.js]) are
    not part of the sources.  What the handlers presuppose of them is
    modelled: identifiers ([_id], [user]) are ObjectIds and every value that
    reaches a filter or a lookup is cast to one, and the [date] path is a
    Date, which the comparisons of the listing require.  The other paths keep
    the value a handler assigns.

    The parts of the JavaScript host and of its libraries that the handlers
    call but do not define (string-to-number conversion, the [moment] date
    library, the casts of the store and the text of its errors) are a type
    class, [Host]; every general theorem holds for every host.  [utc_host] is
    one host, with a UTC calendar, used where a concrete run is evaluated. *)

From Stdlib Require Import ZArith QArith Qround String Ascii List Lia.
From stdpp Require Import base option list strings pretty gmap fin_maps sorting.

Local Open Scope string_scope.
Local Open Scope Z_scope.

(** ** JavaScript values *)

(** A JavaScript number: a finite value, an infinity or NaN.  Finite values
    are rationals, which covers every finite double. *)
Inductive JsNum : Type :=
  | JNaN
  | JFin (q : Q)
  | JPosInf
  | JNegInf.

(** The values that reach the handlers: the primitives a JSON body carries,
    [undefined] for an absent field, and the two object kinds the store hands
    back, [Date] (milliseconds since the epoch) and [ObjectId] (by its
    hexadecimal string).  Nested arrays and objects in a body are outside the
    model, except the [transactionIds] array of the bulk delete. *)
Inductive JsVal : Type :=
  | JUndefined
  | JNull
  | JBool (b : bool)
  | JNum (n : JsNum)
  | JStr (s : string)
  | JDate (ms : Z)
  | JObjectId (hex : string).

Definition num_of_Z (z : Z) : JsNum := JFin (inject_Z z).

(** [ToBoolean] on numbers: everything but 0 and NaN. *)
Definition num_truthy (n : JsNum) : bool :=
  match n with
  | JNaN => false
  | JFin q => negb (Qeq_bool q 0)
  | JPosInf | JNegInf => true
  end.

(** [ToBoolean]: what [if (v)] and [!v] test. *)
Definition truthy (v : JsVal) : bool :=
  match v with
  | JUndefined | JNull => false
  | JBool b => b
  | JNum n => num_truthy n
  | JStr s => negb (String.eqb s "")
  | JDate _ | JObjectId _ => true
  end.

(** [typeof v]. *)
Definition typeof (v : JsVal) : string :=
  match v with
  | JUndefined => "undefined"
  | JNull => "object"
  | JBool _ => "boolean"
  | JNum _ => "number"
  | JStr _ => "string"
  | JDate _ | JObjectId _ => "object"
  end.

(** [v === s] for a string primitive [s]: strict equality never converts, so
    it holds exactly when [v] is a string primitive with the same characters.
    In particular an object compared with a string is never equal. *)
Definition strict_equals_string (v : JsVal) (s : string) : bool :=
  match v with
  | JStr s' => String.eqb s' s
  | _ => false
  end.

(** [n <= 0] on numbers; every comparison with NaN is false. *)
Definition num_le_zero (n : JsNum) : bool :=
  match n with
  | JNaN => false
  | JFin q => Qle_bool q 0
  | JPosInf => false
  | JNegInf => true
  end.

(** [a || b] on numbers. *)
Definition num_or (a b : JsNum) : JsNum := if num_truthy a then a else b.

(** [Array.prototype.includes] with a string needle (SameValueZero is strict
    equality on strings). *)
Definition includes_string (arr : list JsVal) (s : string) : bool :=
  existsb (fun v => strict_equals_string v s) arr.

(** Code units that [String.prototype.trim] strips, among those below 256:
    tab, line feed, vertical tab, form feed, carriage return, space and the
    no-break space. *)
Definition is_white_space (c : ascii) : bool :=
  let n := nat_of_ascii c in
  ((9 <=? n)%nat && (n <=? 13)%nat) || (n =? 32)%nat || (n =? 160)%nat.

Fixpoint trim_start (s : string) : string :=
  match s with
  | EmptyString => EmptyString
  | String c s' => if is_white_space c then trim_start s' else s
  end.

Fixpoint string_rev_onto (s acc : string) : string :=
  match s with
  | EmptyString => acc
  | String c s' => string_rev_onto s' (String c acc)
  end.

Definition string_rev (s : string) : string := string_rev_onto s EmptyString.

(** [s.trim()]. *)
Definition trim (s : string) : string :=
  string_rev (trim_start (string_rev (trim_start s))).

(** ** The host *)

(** The result of casting a value to an ObjectId: the identifier, by its
    canonical hexadecimal string; [null] for [null] and [undefined]; or a
    failure, which makes the query throw. *)
Inductive Cast : Type :=
  | Casts (hex : string)
  | CastsNull
  | CastFails.

(** What the store throws: a [CastError] from a query whose filter cannot
    be cast, a [ValidationError] from [create] or [save] on a document with a
    value that cannot be cast. *)
Inductive Exception : Type :=
  | CastError (kind : string) (value : JsVal) (path model : string)
  | ValidationError (model path : string) (value : JsVal).

(** What the handlers use from the JavaScript engine, from [moment] and from
    the store's casts. *)
Class Host : Type := {
  (** [Number(s)] on a string. *)
  StringToNumber : string -> JsNum;
  (** [moment(v)]: the instant it denotes, [None] when the moment is invalid. *)
  moment_parse : JsVal -> option Z;
  (** [m.startOf('day')] and [m.endOf('day')] on a valid instant. *)
  startOf_day : Z -> Z;
  endOf_day : Z -> Z;
  (** [m.subtract(n, "days")] on a valid instant; [None] when the result is
      not a valid date. *)
  subtract_days : JsNum -> Z -> option Z;
  (** The cast of a value to an ObjectId. *)
  castObjectId : JsVal -> Cast;
  (** The cast of a truthy value assigned to a Date path; [None] when it
      fails. *)
  castDate : JsVal -> option Z;
  (** [err.message]. *)
  err_message : Exception -> string
}.

(** The body of a [try] block: an exception thrown, or a result. *)
Definition Try (A : Type) : Type := Exception + A.

Definition throw {A : Type} (e : Exception) : Try A := inl e.
Definition ret {A : Type} (a : A) : Try A := inr a.

(** [await]: go on with the result, or leave with the exception. *)
Definition try_bind {A B : Type} (m : Try A) (k : A -> Try B) : Try B :=
  match m with
  | inl e => inl e
  | inr a => k a
  end.

Notation "'await' x <- m 'in' k" := (try_bind m (fun x => k))
  (at level 10, x name, m at level 99, k at level 200, only parsing).

Section WithHost.
Context `{H : Host}.

(** [Number(v)]. *)
Definition Number (v : JsVal) : JsNum :=
  match v with
  | JUndefined => JNaN
  | JNull => num_of_Z 0
  | JBool b => if b then num_of_Z 1 else num_of_Z 0
  | JNum n => n
  | JStr s => StringToNumber s
  | JDate ms => num_of_Z ms
  | JObjectId hex => StringToNumber hex
  end.

(** [moment(v).isValid()]. *)
Definition moment_isValid (v : JsVal) : bool :=
  match moment_parse v with Some _ => true | None => false end.

(** The identifier a value denotes once it is cast to an ObjectId, when it
    denotes one. *)
Definition as_id (v : JsVal) : option string :=
  match castObjectId v with
  | Casts k => Some k
  | CastsNull | CastFails => None
  end.

(** The cast of the value fails. *)
Definition cast_fails (v : JsVal) : bool :=
  match castObjectId v with
  | CastFails => true
  | Casts _ | CastsNull => false
  end.

End WithHost.

(** ** Documents and the store *)

(** A document of the [Transaction] collection.  [user] is the owner's
    identifier and [date] holds a Date; the other fields hold whatever the
    handlers assigned. *)
Record TransactionDoc : Type := mkTransaction {
  title : JsVal;
  amount : JsVal;
  category : JsVal;
  description : JsVal;
  date : JsVal;
  user : string;
  transactionType : JsVal
}.

(** A document of the [User] collection: its ordered [transactions] array of
    references, each an [ObjectId] given by its hexadecimal string.  On such
    a reference [t._id] is the [ObjectId] itself and [t._id.toString()] is the
    string. *)
Record UserDoc : Type := mkUser {
  transactions : list string
}.

(** The two collections, keyed by the hexadecimal form of [_id]. *)
Record Db : Type := mkDb {
  Users : gmap string UserDoc;
  Transactions : gmap string TransactionDoc
}.

(** The document [Model.findById(v)] finds, with its identifier, or [null];
    whether the call throws instead is [cast_fails v]. *)
Definition findById `{H : Host} {A : Type} (coll : gmap string A) (v : JsVal)
  : option (string * A) :=
  match as_id v with
  | Some k => match coll !! k with Some d => Some (k, d) | None => None end
  | None => None
  end.

(** [await Model.findById(v)] inside a [try] block. *)
Definition await_findById `{H : Host} {A : Type} (model : string)
    (coll : gmap string A) (v : JsVal) : Try (option (string * A)) :=
  if cast_fails v then throw (CastError "ObjectId" v "_id" model)
  else ret (findById coll v).

(** ** Responses *)

(** The status codes named by the repository's constants file. *)
Module constants.
Definition VALIDATION_ERROR : Z := 400.
Definition UNAUTHORIZED : Z := 401.
Definition FORBIDDEN : Z := 403.
Definition NOT_FOUND : Z := 404.
Definition SERVER_ERROR : Z := 500.
End constants.

(** The JSON bodies the handlers send.  The catch blocks of three handlers
    use the key [messages]. *)
Inductive Body : Type :=
  | Message (success : bool) (message : string)
  | Messages (success : bool) (messages : string)
  | TransactionList (success : bool) (found : list (string * TransactionDoc))
  | OneTransaction (success : bool) (transaction : string * TransactionDoc)
  | MessageAndTransaction (success : bool) (message : string)
      (transaction : string * TransactionDoc).

Record Response : Type := mkResponse {
  status : Z;
  body : Body
}.

Definition success_of (r : Response) : bool :=
  match body r with
  | Message s _ | Messages s _ | TransactionList s _ | OneTransaction s _
  | MessageAndTransaction s _ _ => s
  end.

Definition message_of (r : Response) : option string :=
  match body r with
  | Message _ m | MessageAndTransaction _ m _ => Some m
  | _ => None
  end.

(** ** Queries on the Transaction collection *)

(** The [date] condition of a filter.  A bound is a [Date]; [None] is the
    Invalid Date that an invalid moment converts to. *)
Inductive DateFilter : Type :=
  | NoDateFilter
  | DateBetween (gte lte : option Z)
  | DateAfter (gt : option Z).

(** The filter object [getAllTransactionController] builds. *)
Record Query : Type := mkQuery {
  q_user : JsVal;
  q_transactionType : option JsVal;
  q_date : DateFilter
}.

Definition num_eqb (a b : JsNum) : bool :=
  match a, b with
  | JNaN, JNaN => true
  | JFin p, JFin q => Qeq_bool p q
  | JPosInf, JPosInf => true
  | JNegInf, JNegInf => true
  | _, _ => false
  end.

(** Equality match of a stored value against a queried one: same type and
    same value; a missing field matches [null]. *)
Definition value_eqb (stored queried : JsVal) : bool :=
  match stored, queried with
  | JUndefined, JUndefined | JUndefined, JNull
  | JNull, JUndefined | JNull, JNull => true
  | JBool a, JBool b => Bool.eqb a b
  | JNum a, JNum b => num_eqb a b
  | JStr a, JStr b => String.eqb a b
  | JDate a, JDate b => (a =? b)%Z
  | JObjectId a, JObjectId b => String.eqb a b
  | _, _ => false
  end.

(** A date condition whose bounds are all valid dates.  Comparison operators
    only match fields of the operand's type, here dates. *)
Definition date_matches (f : DateFilter) (d : JsVal) : bool :=
  match f, d with
  | NoDateFilter, _ => true
  | DateBetween (Some lo) (Some hi), JDate ms => (lo <=? ms)%Z && (ms <=? hi)%Z
  | DateAfter (Some lo), JDate ms => (lo <? ms)%Z
  | _, _ => false
  end.

(** Whether the filter can be cast: an Invalid Date bound cannot. *)
Definition date_filter_casts (f : DateFilter) : bool :=
  match f with
  | NoDateFilter => true
  | DateBetween (Some _) (Some _) => true
  | DateAfter (Some _) => true
  | _ => false
  end.

Definition owner_matches `{H : Host} (userId : JsVal) (t : TransactionDoc) : bool :=
  match as_id userId with
  | Some k => String.eqb (user t) k
  | None => false
  end.

Definition type_matches (ty : option JsVal) (t : TransactionDoc) : bool :=
  match ty with
  | Some v => value_eqb (transactionType t) v
  | None => true
  end.

Definition query_matches `{H : Host} (q : Query) (t : TransactionDoc) : bool :=
  owner_matches (q_user q) t
  && type_matches (q_transactionType q) t
  && date_matches (q_date q) (date t).

(** The order of values of different types under a sort. *)
Definition sort_rank (v : JsVal) : Z :=
  match v with
  | JUndefined | JNull => 1
  | JNum _ => 2
  | JStr _ => 3
  | JObjectId _ => 7
  | JBool _ => 8
  | JDate _ => 9
  end.

Definition num_leb (a b : JsNum) : bool :=
  match a, b with
  | JNaN, _ => true
  | _, JNaN => false
  | JNegInf, _ => true
  | _, JNegInf => false
  | _, JPosInf => true
  | JPosInf, _ => false
  | JFin p, JFin q => Qle_bool p q
  end.

Definition value_leb (a b : JsVal) : bool :=
  match a, b with
  | JBool x, JBool y => implb x y
  | JNum x, JNum y => num_leb x y
  | JStr x, JStr y => String.leb x y
  | JObjectId x, JObjectId y => String.leb x y
  | JDate x, JDate y => (x <=? y)%Z
  | _, _ => (sort_rank a <=? sort_rank b)%Z
  end.

(** [a] may precede [b] under [.sort({ date: -1 })]. *)
Definition date_desc (a b : string * TransactionDoc) : Prop :=
  Is_true (value_leb (date (snd b)) (date (snd a))).

Global Instance date_desc_dec a b : Decision (date_desc a b).
Proof. unfold date_desc. apply _. Defined.

(** [Transaction.find(q).sort({ date: -1 })]: [None] when casting the filter
    throws. *)
Definition find_sorted `{H : Host} (q : Query) (coll : gmap string TransactionDoc)
  : option (list (string * TransactionDoc)) :=
  if date_filter_casts (q_date q) then
    Some (merge_sort date_desc
            (map_to_list (filter (fun kt => Is_true (query_matches q (snd kt))) coll)))
  else None.

(** ** The handlers *)

(** [res.status(code).json({ success, message })]. *)
Definition json_message (code : Z) (success : bool) (message : string) : Response :=
  mkResponse code (Message success message).

(** [doc.field = v] on a Transaction document. *)
Definition set_title (v : JsVal) (t : TransactionDoc) : TransactionDoc :=
  mkTransaction v (amount t) (category t) (description t) (date t) (user t)
    (transactionType t).
Definition set_description (v : JsVal) (t : TransactionDoc) : TransactionDoc :=
  mkTransaction (title t) (amount t) (category t) v (date t) (user t)
    (transactionType t).
Definition set_amount (v : JsVal) (t : TransactionDoc) : TransactionDoc :=
  mkTransaction (title t) v (category t) (description t) (date t) (user t)
    (transactionType t).
Definition set_category (v : JsVal) (t : TransactionDoc) : TransactionDoc :=
  mkTransaction (title t) (amount t) v (description t) (date t) (user t)
    (transactionType t).
Definition set_transactionType (v : JsVal) (t : TransactionDoc) : TransactionDoc :=
  mkTransaction (title t) (amount t) (category t) (description t) (date t)
    (user t) v.
Definition set_date (v : JsVal) (t : TransactionDoc) : TransactionDoc :=
  mkTransaction (title t) (amount t) (category t) (description t) v (user t)
    (transactionType t).

(** [user.transactions = arr; user.save()] for the user stored under [uid]. *)
Definition save_user_transactions (uid : string) (arr : list string) (db : Db) : Db :=
  mkDb (<[uid := mkUser arr]> (Users db)) (Transactions db).

(** [!v || typeof v !== 'string' || v.trim().length === 0]. *)
Definition not_a_non_empty_string (v : JsVal) : bool :=
  negb (truthy v)
  || negb (String.eqb (typeof v) "string")
  || match v with
     | JStr s => Nat.eqb (String.length (trim s)) 0
     | _ => false
     end.

(** [!v || typeof v !== 'number' || v <= 0]. *)
Definition not_a_positive_number (v : JsVal) : bool :=
  negb (truthy v)
  || negb (String.eqb (typeof v) "number")
  || match v with
     | JNum n => num_le_zero n
     | _ => false
     end.

(** [!v || !['credit', 'expense'].includes(v)]. *)
Definition not_a_transaction_type (v : JsVal) : bool :=
  negb (truthy v)
  || negb (existsb (strict_equals_string v) ["credit"; "expense"]).

(** The body of a request whose field may be an array. *)
Inductive BodyField : Type :=
  | Scalar (v : JsVal)
  | Array (elems : list JsVal).

Section Handlers.
Context `{H : Host}.

(** [_id: { $in: ids }]: some element casts to the document's identifier. *)
Definition id_in (ids : list JsVal) (k : string) : bool :=
  existsb (fun v => match as_id v with
                    | Some k' => String.eqb k' k
                    | None => false
                    end) ids.

(** The filter [{ _id: { $in: ids }, user: userId }] on a stored document. *)
Definition deleteMany_matches (ids : list JsVal) (userId : JsVal)
    (kt : string * TransactionDoc) : bool :=
  id_in ids (fst kt) && owner_matches userId (snd kt).

(** [!date || !moment(date).isValid()]. *)
Definition not_a_valid_date (v : JsVal) : bool :=
  negb (truthy v) || negb (moment_isValid v).

(** [Transaction.create({ ... })]: the document as the store holds it, with
    the date cast to a Date; validation rejects a date that cannot be cast. *)
Definition Transaction_create
    (title amount category description date : JsVal) (uid : string)
    (transactionType : JsVal) : Try TransactionDoc :=
  match castDate date with
  | Some ms =>
      ret (mkTransaction title amount category description (JDate ms) uid
             transactionType)
  | None => throw (ValidationError "Transaction" "date" date)
  end.

(** The [try] block of POST /addTransaction.  [newId] is the [_id] the
    driver gives the new document. *)
Definition try_addTransaction
    (title amount description date category userId transactionType : JsVal)
    (newId : string) (db : Db) : Try (Response * Db) :=
  if not_a_non_empty_string title then
    ret (json_message 400 false "Title must be a non-empty string", db)
  else if not_a_positive_number amount then
    ret (json_message 400 false "Amount must be a positive number", db)
  else if not_a_valid_date date then
    ret (json_message 400 false "Please provide a valid date", db)
  else if not_a_non_empty_string category then
    ret (json_message 400 false "Category must be a non-empty string", db)
  else if not_a_transaction_type transactionType then
    ret (json_message 400 false
           "Transaction type must be either 'credit' or 'expense'", db)
  else if negb (truthy userId) then
    ret (json_message 400 false "User ID is required", db)
  else
    await user <- await_findById "User" (Users db) userId in
    match user with
    | None => ret (json_message 400 false "User not found", db)
    | Some (uid, user) =>
        await newTransaction <-
          Transaction_create title amount category description date uid
            transactionType in
        let db := mkDb (Users db) (<[newId := newTransaction]> (Transactions db)) in
        let db := save_user_transactions uid (transactions user ++ [newId]) db in
        ret (json_message 200 true "Transaction Added Successfully", db)
    end.

(** POST /addTransaction. *)
Definition addTransactionController
    (title amount description date category userId transactionType : JsVal)
    (newId : string) (db : Db) : Response * Db :=
  match try_addTransaction title amount description date category userId
          transactionType newId db with
  | inr answer => answer
  | inl err => (mkResponse 401 (Messages false (err_message err)), db)
  end.

(** The filter built by POST /getTransaction; [now] is the clock reading
    [moment()] takes. *)
Definition list_query (userId type frequency startDate endDate : JsVal)
    (now : Z) : Query :=
  mkQuery userId
    (if negb (strict_equals_string type "all") then Some type else None)
    (if strict_equals_string frequency "custom" && truthy startDate
        && truthy endDate then
       DateBetween (startOf_day <$> moment_parse startDate)
                   (endOf_day <$> moment_parse endDate)
     else if negb (strict_equals_string frequency "custom") then
       DateAfter (startOf_day <$>
                    subtract_days (num_or (Number frequency) (num_of_Z 7)) now)
     else NoDateFilter).

(** [await Transaction.find(query).sort({ date: -1 })]; an Invalid Date in
    the filter makes the query throw. *)
Definition await_find_sorted (q : Query) (coll : gmap string TransactionDoc)
  : Try (list (string * TransactionDoc)) :=
  match find_sorted q coll with
  | Some found => ret found
  | None => throw (CastError "date" (JNum JNaN) "date" "Transaction")
  end.

(** The [try] block of POST /getTransaction. *)
Definition try_getAllTransaction
    (userId type frequency startDate endDate : JsVal) (now : Z) (db : Db)
  : Try Response :=
  if negb (truthy userId) then
    ret (json_message 400 false "User ID is required")
  else
    await user <- await_findById "User" (Users db) userId in
    match user with
    | None => ret (json_message 400 false "User not found")
    | Some _ =>
        let query := list_query userId type frequency startDate endDate now in
        await found <- await_find_sorted query (Transactions db) in
        ret (mkResponse 200 (TransactionList true found))
    end.

(** POST /getTransaction. *)
Definition getAllTransactionController
    (userId type frequency startDate endDate : JsVal) (now : Z) (db : Db)
  : Response :=
  match try_getAllTransaction userId type frequency startDate endDate now db with
  | inr answer => answer
  | inl _ =>
      json_message 500 false "Error fetching transactions. Please try again."
  end.

(** [await Transaction.deleteMany({ _id: { $in: ids }, user: userId })]: the
    count of deleted documents and the collection afterwards. *)
Definition await_deleteMany (ids : list JsVal) (userId : JsVal)
    (coll : gmap string TransactionDoc)
  : Try (nat * gmap string TransactionDoc) :=
  match List.find cast_fails ids with
  | Some v => throw (CastError "ObjectId" v "_id" "Transaction")
  | None =>
      if cast_fails userId then
        throw (CastError "ObjectId" userId "user" "Transaction")
      else
        ret (size (filter (fun kt => Is_true (deleteMany_matches ids userId kt))
                     coll),
             filter (fun kt => ¬ Is_true (deleteMany_matches ids userId kt)) coll)
  end.

(** The [try] block of POST /deleteMultipleTransactions. *)
Definition try_deleteMultipleTransactions
    (transactionIds : BodyField) (userId : JsVal) (db : Db)
  : Try (Response * Db) :=
  match transactionIds with
  | Scalar _ | Array [] =>
      ret (json_message 400 false "Please provide valid transaction IDs", db)
  | Array ids =>
      await user <- await_findById "User" (Users db) userId in
      match user with
      | None => ret (json_message 400 false "User not found", db)
      | Some (uid, user) =>
          await deletedTransactions <-
            await_deleteMany ids userId (Transactions db) in
          let deletedCount := fst deletedTransactions in
          let db := mkDb (Users db) (snd deletedTransactions) in
          if Nat.eqb deletedCount 0 then
            ret (json_message 404 false "No transactions found to delete", db)
          else
            let db :=
              save_user_transactions uid
                (List.filter (fun transaction => negb (includes_string ids transaction))
                   (transactions user)) db in
            ret (json_message 200 true
                   ("Successfully deleted " ++ pretty deletedCount ++ " transactions"),
                 db)
      end
  end.

(** POST /deleteMultipleTransactions. *)
Definition deleteMultipleTransactionsController
    (transactionIds : BodyField) (userId : JsVal) (db : Db) : Response * Db :=
  match try_deleteMultipleTransactions transactionIds userId db with
  | inr answer => answer
  | inl err => (json_message 500 false (err_message err), db)
  end.

(** [await Transaction.findOne({ _id: id, user: userId })]. *)
Definition await_findOne (id userId : JsVal) (coll : gmap string TransactionDoc)
  : Try (option (string * TransactionDoc)) :=
  if cast_fails id then throw (CastError "ObjectId" id "_id" "Transaction")
  else if cast_fails userId then
    throw (CastError "ObjectId" userId "user" "Transaction")
  else
    ret (match findById coll id with
         | Some (k, t) => if owner_matches userId t then Some (k, t) else None
         | None => None
         end).

(** POST /getTransaction/:id. *)
Definition getSingleTransactionController
    (id : string) (userId : JsVal) (db : Db) : Response :=
  if String.eqb id "" || negb (truthy userId) then
    json_message 400 false "Transaction ID and User ID are required"
  else
    match await_findOne (JStr id) userId (Transactions db) with
    | inr (Some transaction) => mkResponse 200 (OneTransaction true transaction)
    | inr None => json_message 404 false "Transaction not found"
    | inl err => json_message 500 false (err_message err)
    end.

(** The [try] block of POST /deleteTransaction/:id. *)
Definition try_deleteTransaction
    (transactionId : string) (userId : JsVal) (db : Db) : Try (Response * Db) :=
  await user <- await_findById "User" (Users db) userId in
  match user with
  | None => ret (json_message 400 false "User not found", db)
  | Some (uid, user) =>
      await transactionElement <-
        await_findById "Transaction" (Transactions db) (JStr transactionId) in
      match transactionElement with
      | None => ret (json_message 400 false "transaction not found", db)
      | Some (k, _) =>
          let db := mkDb (Users db) (delete k (Transactions db)) in
          let transactionArr :=
            List.filter
              (fun transaction =>
                 strict_equals_string (JObjectId transaction) transactionId)
              (transactions user) in
          let db := save_user_transactions uid transactionArr db in
          ret (json_message 200 true "Transaction successfully deleted", db)
      end
  end.

(** POST /deleteTransaction/:id. *)
Definition deleteTransactionController
    (transactionId : string) (userId : JsVal) (db : Db) : Response * Db :=
  match try_deleteTransaction transactionId userId db with
  | inr answer => answer
  | inl err => (mkResponse 401 (Messages false (err_message err)), db)
  end.

(** [transactionElement.date = date] followed by [save()]: the date is cast
    to a Date, and [save()] rejects a document whose date could not be. *)
Definition assign_date (date : JsVal) (t : TransactionDoc) : Try TransactionDoc :=
  match castDate date with
  | Some ms => ret (set_date (JDate ms) t)
  | None => throw (ValidationError "Transaction" "date" date)
  end.

(** The [try] block of PUT /updateTransaction/:id. *)
Definition try_updateTransaction
    (transactionId : string)
    (title amount description date category transactionType : JsVal)
    (db : Db) : Try (Response * Db) :=
  await found <-
    await_findById "Transaction" (Transactions db) (JStr transactionId) in
  match found with
  | None => ret (json_message 400 false "transaction not found", db)
  | Some (k, transactionElement) =>
      let transactionElement :=
        if truthy title then set_title title transactionElement
        else transactionElement in
      let transactionElement :=
        if truthy description then set_description description transactionElement
        else transactionElement in
      let transactionElement :=
        if truthy amount then set_amount amount transactionElement
        else transactionElement in
      let transactionElement :=
        if truthy category then set_category category transactionElement
        else transactionElement in
      let transactionElement :=
        if truthy transactionType then
          set_transactionType transactionType transactionElement
        else transactionElement in
      await transactionElement <-
        (if truthy date then assign_date date transactionElement
         else ret transactionElement) in
      let db :=
        mkDb (Users db) (<[k := transactionElement]> (Transactions db)) in
      ret (mkResponse 200
             (MessageAndTransaction true "Transaction Updated Successfully"
                (k, transactionElement)),
           db)
  end.

(** PUT /updateTransaction/:id. *)
Definition updateTransactionController
    (transactionId : string)
    (title amount description date category transactionType : JsVal)
    (db : Db) : Response * Db :=
  match try_updateTransaction transactionId title amount description date
          category transactionType db with
  | inr answer => answer
  | inl err => (mkResponse 401 (Messages false (err_message err)), db)
  end.

End Handlers.

(** ** A host with a UTC calendar *)

Definition ms_per_day : Z := 86400000.

(** The rounding [moment] applies to a count of days: [Math.round] of the
    absolute value, with the sign put back. *)
Definition absRound (q : Q) : Z :=
  if Qle_bool 0 q then Qfloor (q + (1 # 2)) else - Qfloor (- q + (1 # 2)).

Definition digit_of (c : ascii) : option Z :=
  let n := Z.of_nat (nat_of_ascii c) in
  if (48 <=? n)%Z && (n <=? 57)%Z then Some (n - 48) else None.

Fixpoint digits_value (s : string) (acc : Z) : option Z :=
  match s with
  | EmptyString => Some acc
  | String c s' =>
      match digit_of c with
      | Some d => digits_value s' (10 * acc + d)
      | None => None
      end
  end.

(** [Number(s)] on blank strings and on decimal integer literals with an
    optional sign; this host reads every other string as NaN. *)
Definition decimal_StringToNumber (s : string) : JsNum :=
  match trim s with
  | EmptyString => num_of_Z 0
  | String c rest =>
      let unsigned (t : string) (sign : Z) :=
        match t with
        | EmptyString => JNaN
        | _ => match digits_value t 0 with
               | Some z => num_of_Z (sign * z)
               | None => JNaN
               end
        end in
      if Ascii.eqb c "-" then unsigned rest (-1)
      else if Ascii.eqb c "+" then unsigned rest 1
      else unsigned (String c rest) 1
  end.

Definition is_leap_year (y : Z) : bool :=
  ((y mod 4 =? 0)%Z && negb (y mod 100 =? 0)%Z) || (y mod 400 =? 0)%Z.

Definition days_in_month (y m : Z) : Z :=
  if (m =? 2)%Z then (if is_leap_year y then 29 else 28)
  else if (m =? 4)%Z || (m =? 6)%Z || (m =? 9)%Z || (m =? 11)%Z then 30
  else 31.

(** Days from 1970-01-01 to the given day of the proleptic Gregorian
    calendar. *)
Definition days_from_civil (y m d : Z) : Z :=
  let y := if (m <=? 2)%Z then y - 1 else y in
  let era := y / 400 in
  let yoe := y - era * 400 in
  let doy := (153 * (if (2 <? m)%Z then m - 3 else m + 9) + 2) / 5 + d - 1 in
  let doe := yoe * 365 + yoe / 4 - yoe / 100 + doy in
  era * 146097 + doe - 719468.

(** [moment("YYYY-MM-DD")]: midnight of that day, when it is a calendar day. *)
Definition parse_iso_day (s : string) : option Z :=
  if Nat.eqb (String.length s) 10
     && String.eqb (substring 4 1 s) "-" && String.eqb (substring 7 1 s) "-"
  then
    match digits_value (substring 0 4 s) 0, digits_value (substring 5 2 s) 0,
          digits_value (substring 8 2 s) 0 with
    | Some y, Some m, Some d =>
        if (1 <=? m)%Z && (m <=? 12)%Z && (1 <=? d)%Z
           && (d <=? days_in_month y m)%Z
        then Some (days_from_civil y m d * ms_per_day)
        else None
    | _, _, _ => None
    end
  else None.

(** The largest time value of a [Date]. *)
Definition max_time : Z := 8640000000000000.

(** [moment(v)] for a date, a timestamp in milliseconds or a [YYYY-MM-DD]
    string; this host reads every other value as an invalid moment.  The
    handlers only pass truthy values. *)
Definition utc_moment_parse (v : JsVal) : option Z :=
  match v with
  | JDate ms => Some ms
  | JNum (JFin q) =>
      let t := if Qle_bool 0 q then Qfloor q else Qceiling q in
      if (Z.abs t <=? max_time)%Z then Some t else None
  | JStr s => parse_iso_day s
  | _ => None
  end.

Definition utc_startOf_day (t : Z) : Z := t - t mod ms_per_day.

Definition utc_endOf_day (t : Z) : Z := utc_startOf_day t + (ms_per_day - 1).

(** Whole days are subtracted; NaN days change nothing and infinite ones give
    an invalid date. *)
Definition utc_subtract_days (n : JsNum) (t : Z) : option Z :=
  match n with
  | JFin q => Some (t - absRound q * ms_per_day)
  | JNaN => Some t
  | JPosInf | JNegInf => None
  end.

Definition is_hex_digit (c : ascii) : bool :=
  let n := nat_of_ascii c in
  ((48 <=? n)%nat && (n <=? 57)%nat)
  || ((65 <=? n)%nat && (n <=? 70)%nat)
  || ((97 <=? n)%nat && (n <=? 102)%nat).

Definition lower_hex (c : ascii) : ascii :=
  let n := nat_of_ascii c in
  if (65 <=? n)%nat && (n <=? 70)%nat then ascii_of_nat (n + 32) else c.

Fixpoint string_forallb (f : ascii -> bool) (s : string) : bool :=
  match s with
  | EmptyString => true
  | String c s' => f c && string_forallb f s'
  end.

Fixpoint string_map (f : ascii -> ascii) (s : string) : string :=
  match s with
  | EmptyString => EmptyString
  | String c s' => String (f c) (string_map f s')
  end.

(** The cast to an ObjectId: an ObjectId is itself, [null] and [undefined]
    stay [null], a string of 24 hexadecimal digits in either case is the
    identifier with these digits, and this host refuses every other value. *)
Definition utc_castObjectId (v : JsVal) : Cast :=
  match v with
  | JObjectId hex => Casts hex
  | JUndefined | JNull => CastsNull
  | JStr s =>
      if Nat.eqb (String.length s) 24 && string_forallb is_hex_digit s
      then Casts (string_map lower_hex s)
      else CastFails
  | JBool _ | JNum _ | JDate _ => CastFails
  end.

(** The cast to a Date of a date, of a timestamp in milliseconds and of a
    [YYYY-MM-DD] string, read as midnight UTC; this host refuses every other
    value. *)
Definition utc_castDate (v : JsVal) : option Z :=
  match v with
  | JDate ms => Some ms
  | JNum (JFin q) =>
      let t := if Qle_bool 0 q then Qfloor q else Qceiling q in
      if (Z.abs t <=? max_time)%Z then Some t else None
  | JStr s => parse_iso_day s
  | _ => None
  end.

Definition double_quote : string := String (ascii_of_nat 34) EmptyString.

(** How a value is shown in the text of an error; only strings are shown in
    full. *)
Definition shown (v : JsVal) : string :=
  match v with
  | JStr s => double_quote ++ s ++ double_quote ++ " (type string)"
  | JNum _ => "a number"
  | JBool _ => "a boolean"
  | JUndefined => "undefined"
  | JNull => "null"
  | JDate _ => "a date"
  | JObjectId hex => hex
  end.

Definition utc_err_message (e : Exception) : string :=
  match e with
  | CastError kind value path model =>
      "Cast to " ++ kind ++ " failed for value " ++ shown value
      ++ " at path " ++ double_quote ++ path ++ double_quote
      ++ " for model " ++ double_quote ++ model ++ double_quote
  | ValidationError model path value =>
      model ++ " validation failed: " ++ path
      ++ ": Cast to date failed for value " ++ shown value
      ++ " at path " ++ double_quote ++ path ++ double_quote
  end.

Definition utc_host : Host := {|
  StringToNumber := decimal_StringToNumber;
  moment_parse := utc_moment_parse;
  startOf_day := utc_startOf_day;
  endOf_day := utc_endOf_day;
  subtract_days := utc_subtract_days;
  castObjectId := utc_castObjectId;
  castDate := utc_castDate;
  err_message := utc_err_message
|}.

(** ** A sample store *)

(** Two users; Alice owns a salary credited on 2024-01-10 and a rent paid on
    2024-01-15, Bob owns a gift received on 2024-01-12. *)
Definition alice : string := "65a1f0c2e4b0a1b2c3d4e5f1".
Definition bob : string := "65a1f0c2e4b0a1b2c3d4e5f2".
Definition salary_id : string := "65b2a7d9e4b0a1b2c3d4e601".
Definition rent_id : string := "65b2a7d9e4b0a1b2c3d4e602".
Definition gift_id : string := "65b2a7d9e4b0a1b2c3d4e603".

(** Noon of a calendar day, UTC. *)
Definition noon (y m d : Z) : Z :=
  days_from_civil y m d * ms_per_day + 12 * 3600000.

Definition salary : TransactionDoc :=
  mkTransaction (JStr "Salary") (JNum (num_of_Z 3000)) (JStr "Income")
    (JStr "January pay") (JDate (noon 2024 1 10)) alice (JStr "credit").
Definition rent : TransactionDoc :=
  mkTransaction (JStr "Rent") (JNum (num_of_Z 900)) (JStr "Housing")
    JUndefined (JDate (noon 2024 1 15)) alice (JStr "expense").
Definition gift : TransactionDoc :=
  mkTransaction (JStr "Gift") (JNum (num_of_Z 40)) (JStr "Other")
    JUndefined (JDate (noon 2024 1 12)) bob (JStr "credit").

Definition sample_db : Db :=
  mkDb (<[alice := mkUser [salary_id; rent_id]]> (<[bob := mkUser [gift_id]]> ∅))
       (<[salary_id := salary]> (<[rent_id := rent]> (<[gift_id := gift]> ∅))).

(** 2024-01-18, 09:00 UTC. *)
Definition sample_now : Z := days_from_civil 2024 1 18 * ms_per_day + 9 * 3600000.

(** ** Specification-level notions *)

(** A present, numeric, strictly positive amount. *)
Definition positive_number (v : JsVal) : Prop :=
  match v with
  | JNum (JFin q) => (0 < q)%Q
  | JNum JPosInf => True
  | _ => False
  end.

(** Text that is non-empty after trimming white space. *)
Definition non_empty_text (v : JsVal) : Prop :=
  ∃ s, v = JStr s ∧ trim s ≠ "".

(** One of the two transaction types. *)
Definition credit_or_expense (v : JsVal) : Prop :=
  v = JStr "credit" ∨ v = JStr "expense".

(** The type filter of a listing: no constraint for the sentinel ["all"]. *)
Definition passes_type_filter (type : JsVal) (t : TransactionDoc) : Prop :=
  type = JStr "all" ∨ value_eqb (transactionType t) type = true.

(** The transaction is owned by the user the request names. *)
Definition owned_by `{H : Host} (userId : JsVal) (t : TransactionDoc) : Prop :=
  as_id userId = Some (user t).

(** Present and parseable as a valid date. *)
Definition valid_date `{H : Host} (v : JsVal) : Prop :=
  truthy v = true ∧ is_Some (moment_parse v).

(** The same transaction under another owner. *)
Definition with_owner (owner : string) (t : TransactionDoc) : TransactionDoc :=
  mkTransaction (title t) (amount t) (category t) (description t) (date t)
    owner (transactionType t).

(** The messages of the create validation, in the order of the checks. *)
Definition validation_messages : list string :=
  [ "Title must be a non-empty string";
    "Amount must be a positive number";
    "Please provide a valid date";
    "Category must be a non-empty string";
    "Transaction type must be either 'credit' or 'expense'";
    "User ID is required";
    "User not found" ].

(** The reference invariant of the data model: every reference held by a
    user names a stored transaction that this user owns. *)
Definition refs_consistent (db : Db) : Prop :=
  ∀ uid u k,
    Users db !! uid = Some u → k ∈ transactions u →
    ∃ t, Transactions db !! k = Some t ∧ user t = uid.

(** An element of an identifier list that, when it denotes an identifier,
    is the canonical string of that identifier: the string a reference is
    compared with. *)
Definition canonical_id `{H : Host} (v : JsVal) : Prop :=
  ∀ k, as_id v = Some k → v = JStr k.

(** The transaction carries a Date. *)
Definition dated (kt : string * TransactionDoc) : Prop :=
  ∃ ms, date kt.2 = JDate ms.

(** Both transactions carry a date and the first is not older than the
    second. *)
Definition dated_newer_first (a b : string * TransactionDoc) : Prop :=
  ∃ x y, date a.2 = JDate x ∧ date b.2 = JDate y ∧ y ≤ x.

(** ** Basic facts about the store operations *)

Local Arguments List.filter {A} f l : simpl never.

Section StoreFacts.
Context `{H : Host}.

Lemma findById_Some {A : Type} (coll : gmap string A) v k d :
  findById coll v = Some (k, d) ↔ as_id v = Some k ∧ coll !! k = Some d.
Proof.
  unfold findById. destruct (as_id v) as [k'|]; [|by split; [|intros []]].
  destruct (coll !! k') as [d'|] eqn:E; split.
  - by intros [= <- <-].
  - intros [[= <-] Hd]. rewrite E in Hd. by injection Hd as ->.
  - done.
  - intros [[= <-] Hd]. by rewrite E in Hd.
Qed.

Lemma as_id_casts v k : as_id v = Some k → cast_fails v = false.
Proof. unfold as_id, cast_fails. by destruct (castObjectId v). Qed.

Lemma findById_casts {A : Type} (coll : gmap string A) v :
  is_Some (findById coll v) → cast_fails v = false.
Proof.
  intros [[k d] Hf]. apply findById_Some in Hf as [Hid _].
  by apply as_id_casts in Hid.
Qed.

Lemma await_findById_casts {A : Type} model (coll : gmap string A) v :
  cast_fails v = false → await_findById model coll v = ret (findById coll v).
Proof. intros Hc. unfold await_findById. by rewrite Hc. Qed.

Lemma await_findById_found {A : Type} model (coll : gmap string A) v k d :
  findById coll v = Some (k, d) →
  await_findById model coll v = ret (Some (k, d)).
Proof.
  intros Hf. rewrite await_findById_casts, Hf; [done|].
  apply (findById_casts coll). rewrite Hf. by eexists.
Qed.

Lemma findById_cast_fails {A : Type} (coll : gmap string A) v :
  cast_fails v = true → findById coll v = None.
Proof.
  unfold cast_fails, findById, as_id. by destruct (castObjectId v).
Qed.

Lemma owner_matches_true userId t :
  owner_matches userId t = true ↔ owned_by userId t.
Proof.
  unfold owner_matches, owned_by. destruct (as_id userId) as [k|].
  - rewrite String.eqb_eq. split; [by intros ->|by intros [= ->]].
  - by split.
Qed.

Lemma owner_matches_as_id userId uid t :
  as_id userId = Some uid → owner_matches userId t = true ↔ user t = uid.
Proof.
  intros E. unfold owner_matches. rewrite E. apply String.eqb_eq.
Qed.

Lemma id_in_true ids k :
  id_in ids k = true ↔ ∃ v, v ∈ ids ∧ as_id v = Some k.
Proof.
  unfold id_in. rewrite existsb_exists. split.
  - intros (v & Hin & Hv). exists v. rewrite list_elem_of_In. split; [done|].
    destruct (as_id v) as [k'|]; [|done]. apply String.eqb_eq in Hv. by subst.
  - intros (v & Hin & Hv). exists v. rewrite <- list_elem_of_In. split; [done|].
    rewrite Hv. apply String.eqb_refl.
Qed.

Lemma strict_filter_nil transactionId (refs : list string) :
  List.filter (λ k, strict_equals_string (JObjectId k) transactionId) refs = [].
Proof. induction refs as [|k refs IH]; [done|exact IH]. Qed.

(** ** deleteOne *)

(** What a single delete does when it succeeds, and that it succeeds exactly
    when the user is known and the transaction is stored. *)
Lemma deleteTransaction_success transactionId userId db :
  success_of (fst (deleteTransactionController transactionId userId db)) = true
  ↔ ∃ uid u k t,
      findById (Users db) userId = Some (uid, u)
      ∧ findById (Transactions db) (JStr transactionId) = Some (k, t)
      ∧ deleteTransactionController transactionId userId db
        = (json_message 200 true "Transaction successfully deleted",
           mkDb (<[uid := mkUser []]> (Users db)) (delete k (Transactions db))).
Proof.
  unfold deleteTransactionController, try_deleteTransaction, await_findById.
  destruct (cast_fails userId) eqn:Cu; simpl.
  { rewrite (findById_cast_fails _ _ Cu). split; [done|].
    by intros (? & ? & ? & ? & [=] & _). }
  destruct (findById (Users db) userId) as [[uid u]|]; simpl.
  2:{ split; [done|]. by intros (? & ? & ? & ? & [=] & _). }
  destruct (cast_fails (JStr transactionId)) eqn:Ct; simpl.
  { rewrite (findById_cast_fails _ _ Ct). split; [done|].
    by intros (? & ? & ? & ? & _ & [=] & _). }
  destruct (findById (Transactions db) (JStr transactionId)) as [[k t]|]; simpl.
  - replace (List.filter (λ _ : string, false) (transactions u))
      with (@nil string) by (symmetry; apply (strict_filter_nil transactionId)).
    split; [|done]. intros _. by exists uid, u, k, t.
  - split; [done|]. by intros (? & ? & ? & ? & _ & [=] & _).
Qed.

(** After a successful single delete the owner's reference array is empty,
    whatever it held: the filter keeps an element only when its [ObjectId]
    is strictly equal to the identifier string, which never holds. *)
Lemma deleteTransaction_references_emptied transactionId userId db uid u :
  findById (Users db) userId = Some (uid, u) →
  is_Some (findById (Transactions db) (JStr transactionId)) →
  Users (snd (deleteTransactionController transactionId userId db)) !! uid
  = Some (mkUser []).
Proof.
  intros Hu [[k t] Ht].
  assert (success_of (fst (deleteTransactionController transactionId userId db))
          = true) as Hs.
  { apply deleteTransaction_success. exists uid, u, k, t.
    split; [done|]. split; [done|].
    unfold deleteTransactionController, try_deleteTransaction.
    rewrite (await_findById_found _ _ _ _ _ Hu). simpl.
    rewrite (await_findById_found _ _ _ _ _ Ht). simpl.
    replace (List.filter (λ _ : string, false) (transactions u))
      with (@nil string) by (symmetry; apply (strict_filter_nil transactionId)).
    done. }
  apply deleteTransaction_success in Hs as (uid' & u' & k' & t' & Hu' & _ & ->).
  rewrite Hu in Hu'. injection Hu' as <- <-. simpl. apply lookup_insert_eq.
Qed.

End StoreFacts.

Section DeleteOneRun.
Local Existing Instance utc_host.

(** C1, evaluated on the sample store: Alice deletes her salary.  The
    specification asks that her references become [[rent_id]]; the handler
    leaves her with no reference at all, so the reference to the rent, a
    different and still stored transaction, is lost. *)
Theorem deleteOne_drops_other_references :
  let result := deleteTransactionController salary_id (JStr alice) sample_db in
  let after := snd result in
  fst result = json_message 200 true "Transaction successfully deleted"
  ∧ Users sample_db !! alice = Some (mkUser [salary_id; rent_id])
  ∧ Users after !! alice = Some (mkUser [])
  ∧ Users after !! alice ≠ Some (mkUser [rent_id])
  ∧ Transactions after !! rent_id = Some rent.
Proof.
  vm_compute. repeat split; congruence.
Qed.

End DeleteOneRun.

(** ** deleteMany *)

Section DeleteMany.
Context `{H : Host}.

Lemma deleteMany_selected ids userId uid kt :
  as_id userId = Some uid →
  Is_true (deleteMany_matches ids userId kt)
  ↔ (∃ v, v ∈ ids ∧ as_id v = Some kt.1) ∧ user kt.2 = uid.
Proof.
  intros E. unfold deleteMany_matches.
  rewrite Is_true_true, andb_true_iff, id_in_true.
  by rewrite (owner_matches_as_id _ _ _ E).
Qed.

Lemma size_filter_complement {A : Type} (P : string * A → Prop)
    `{!∀ x, Decision (P x)} (m : gmap string A) :
  size m = (size (filter (λ x, ¬ P x) m) + size (filter P m))%nat.
Proof.
  rewrite <- (map_filter_union_complement P m) at 1.
  rewrite map_size_disj_union by apply map_disjoint_filter_complement.
  lia.
Qed.

Lemma find_cast_fails_None ids :
  List.find cast_fails ids = None ↔ Forall (λ v, cast_fails v = false) ids.
Proof.
  induction ids as [|v ids IH]; simpl.
  - split; [constructor|done].
  - destruct (cast_fails v) eqn:E.
    + split; [done|]. intros Hf. apply Forall_cons in Hf as [Hv _]. congruence.
    + rewrite IH. split; [by constructor|]. intros Hf.
      by apply Forall_cons in Hf as [_ ?].
Qed.

(** The bulk delete query does not throw when every listed value and the
    user can be cast. *)
Lemma await_deleteMany_casts ids userId coll :
  Forall (λ v, cast_fails v = false) ids →
  cast_fails userId = false →
  await_deleteMany ids userId coll
  = ret (size (filter (λ kt, Is_true (deleteMany_matches ids userId kt)) coll),
         filter (λ kt, ¬ Is_true (deleteMany_matches ids userId kt)) coll).
Proof.
  intros Hids Hu. unfold await_deleteMany.
  by rewrite (proj2 (find_cast_fails_None ids) Hids), Hu.
Qed.

(** A bulk delete that finds nothing to delete returns the store unchanged. *)
Lemma deleteMany_nothing_matched ids userId (ts : gmap string TransactionDoc) :
  size (filter (λ kt, Is_true (deleteMany_matches ids userId kt)) ts) = 0%nat →
  filter (λ kt, ¬ Is_true (deleteMany_matches ids userId kt)) ts = ts.
Proof.
  intros Hn. apply map_size_empty_iff in Hn.
  apply map_filter_id. intros k t Hk HP.
  assert (filter (λ kt, Is_true (deleteMany_matches ids userId kt)) ts !! k
          = Some t) as Hin by (by apply map_lookup_filter_Some).
  rewrite Hn in Hin. by rewrite lookup_empty in Hin.
Qed.

(** The answer of a bulk delete whose query does not throw. *)
Lemma deleteMany_no_throw v ids userId db uid u :
  findById (Users db) userId = Some (uid, u) →
  Forall (λ v, cast_fails v = false) (v :: ids) →
  let n := size (filter (λ kt, Is_true (deleteMany_matches (v :: ids) userId kt))
                   (Transactions db)) in
  deleteMultipleTransactionsController (Array (v :: ids)) userId db
  = if Nat.eqb n 0 then
      (json_message 404 false "No transactions found to delete", db)
    else
      (json_message 200 true
         ("Successfully deleted " ++ pretty n ++ " transactions"),
       mkDb (<[uid := mkUser
                        (List.filter (λ k, negb (includes_string (v :: ids) k))
                           (transactions u))]> (Users db))
            (filter (λ kt, ¬ Is_true (deleteMany_matches (v :: ids) userId kt))
               (Transactions db))).
Proof.
  intros Hu Hids n.
  unfold deleteMultipleTransactionsController, try_deleteMultipleTransactions.
  rewrite (await_findById_found _ _ _ _ _ Hu).
  assert (cast_fails userId = false) as Hc
    by (apply (findById_casts (Users db)); rewrite Hu; by eexists).
  unfold try_bind at 1. unfold ret at 1. cbv iota beta.
  rewrite (await_deleteMany_casts _ _ _ Hids Hc).
  unfold try_bind, ret. cbv iota beta. cbn [fst snd]. fold n.
  destruct (Nat.eqb n 0) eqn:E; [|done].
  apply Nat.eqb_eq in E. f_equal. destruct db as [us ts]. cbn [Users Transactions] in *.
  f_equal. by apply deleteMany_nothing_matched.
Qed.

(** C2, as amended.  A bulk delete by an existing user with a non-empty list
    of values that all cast to an identifier removes exactly the stored
    transactions whose identifier some listed value casts to and whose owner
    is that user; every other transaction, a foreign one with a listed
    identifier included, stays as it was.  The number [n] of removed
    transactions is what the success message reports, and when it is zero the
    handler answers 404 and the store is unchanged. *)
Theorem deleteMany_deletes_owned_listed ids userId db uid u :
  ids ≠ [] →
  findById (Users db) userId = Some (uid, u) →
  Forall (λ v, cast_fails v = false) ids →
  let result := deleteMultipleTransactionsController (Array ids) userId db in
  let listed (k : string) := ∃ v, v ∈ ids ∧ as_id v = Some k in
  ∃ n : nat,
    (∀ k t, Transactions (snd result) !! k = Some t
            ↔ Transactions db !! k = Some t ∧ ¬ (listed k ∧ user t = uid))
    ∧ (∀ k t, Transactions db !! k = Some t → user t ≠ uid →
              Transactions (snd result) !! k = Some t)
    ∧ n = size (filter (λ kt, Is_true (id_in ids kt.1 && String.eqb (user kt.2) uid))
                  (Transactions db))
    ∧ size (Transactions db) = (size (Transactions (snd result)) + n)%nat
    ∧ (n = 0%nat →
       result = (json_message 404 false "No transactions found to delete", db))
    ∧ (n ≠ 0%nat →
       fst result
       = json_message 200 true
           ("Successfully deleted " ++ pretty n ++ " transactions")).
Proof.
  intros Hne Hu Hids result listed.
  pose proof (proj1 (findById_Some _ _ _ _) Hu) as [Hid _].
  set (P := λ kt : string * TransactionDoc,
              Is_true (deleteMany_matches ids userId kt)).
  set (n := size (filter P (Transactions db))).
  destruct ids as [|v ids']; [done|].
  pose proof (deleteMany_no_throw v ids' userId db uid u Hu Hids) as E.
  cbv zeta in E. fold P in E. fold n in E. fold result in E.
  assert (Hafter : Transactions (snd result) = filter (λ kt, ¬ P kt) (Transactions db)).
  { rewrite E. destruct (Nat.eqb n 0) eqn:En; [|done]. simpl.
    apply Nat.eqb_eq in En. symmetry. by apply deleteMany_nothing_matched. }
  assert (Hkeep : ∀ k t, Transactions (snd result) !! k = Some t
            ↔ Transactions db !! k = Some t ∧ ¬ (listed k ∧ user t = uid)).
  { intros k t. rewrite Hafter, map_lookup_filter_Some. unfold P.
    by rewrite (deleteMany_selected (v :: ids') userId uid (k, t) Hid). }
  exists n. split; [exact Hkeep|]. split.
  { intros k t Hk Ht. apply Hkeep. split; [done|]. by intros [_ ?]. }
  split.
  { unfold n. f_equal. apply map_filter_ext. intros k t _. unfold P.
    rewrite (deleteMany_selected (v :: ids') userId uid (k, t) Hid).
    by rewrite Is_true_true, andb_true_iff, id_in_true, String.eqb_eq. }
  split.
  { rewrite Hafter. apply (size_filter_complement P). }
  split.
  - intros Hn. rewrite E, Hn. done.
  - intros Hn. rewrite E. destruct (Nat.eqb n 0) eqn:En; [|done].
    by apply Nat.eqb_eq in En.
Qed.

End DeleteMany.

Section DeleteManyRuns.
Local Existing Instance utc_host.

(** A bulk delete that lists Alice's salary and Bob's gift, sent by Alice. *)
Lemma deleteMany_deletes_owned_listed_witness :
  let ids := [JStr salary_id; JStr gift_id] in
  let result := deleteMultipleTransactionsController (Array ids) (JStr alice) sample_db in
  let listed (k : string) := ∃ v, v ∈ ids ∧ as_id v = Some k in
  ∃ n : nat,
    (∀ k t, Transactions (snd result) !! k = Some t
            ↔ Transactions sample_db !! k = Some t ∧ ¬ (listed k ∧ user t = alice))
    ∧ (∀ k t, Transactions sample_db !! k = Some t → user t ≠ alice →
              Transactions (snd result) !! k = Some t)
    ∧ n = size (filter (λ kt, Is_true (id_in ids kt.1 && String.eqb (user kt.2) alice))
                  (Transactions sample_db))
    ∧ size (Transactions sample_db) = (size (Transactions (snd result)) + n)%nat
    ∧ (n = 0%nat →
       result = (json_message 404 false "No transactions found to delete", sample_db))
    ∧ (n ≠ 0%nat →
       fst result
       = json_message 200 true
           ("Successfully deleted " ++ pretty n ++ " transactions")).
Proof.
  apply (deleteMany_deletes_owned_listed [JStr salary_id; JStr gift_id]
           (JStr alice) sample_db alice (mkUser [salary_id; rent_id])).
  - discriminate.
  - vm_compute. reflexivity.
  - repeat constructor.
Defined.

(** C2 as stated fails when the list holds a value that is no identifier:
    Alice lists her salary and the text "oops"; the query throws, the answer
    is the 500 of the catch block and the salary, listed and her own, is
    still stored. *)
Lemma deleteMany_malformed_id_counterexample :
  let ids := [JStr salary_id; JStr "oops"] in
  let result := deleteMultipleTransactionsController (Array ids) (JStr alice) sample_db in
  ids ≠ []
  ∧ findById (Users sample_db) (JStr alice) = Some (alice, mkUser [salary_id; rent_id])
  ∧ JStr salary_id ∈ ids
  ∧ Transactions sample_db !! salary_id = Some salary
  ∧ user salary = alice
  ∧ status (fst result) = 500
  ∧ success_of (fst result) = false
  ∧ Transactions (snd result) !! salary_id = Some salary.
Proof.
  repeat split; try (vm_compute; congruence). apply list_elem_of_here.
Qed.

End DeleteManyRuns.

(** ** list *)

Local Arguments date_matches : simpl never.

Section Listing.
Context `{H : Host}.

Lemma elem_of_find_sorted q coll found k t :
  find_sorted q coll = Some found →
  (k, t) ∈ found ↔ coll !! k = Some t ∧ query_matches q t = true.
Proof.
  unfold find_sorted. destruct (date_filter_casts (q_date q)); [|done].
  intros [= <-]. rewrite merge_sort_Permutation, elem_of_map_to_list.
  rewrite map_lookup_filter_Some. simpl. by rewrite Is_true_true.
Qed.

Lemma strict_equals_string_true v s :
  strict_equals_string v s = true ↔ v = JStr s.
Proof.
  destruct v; simpl; try (split; [discriminate|discriminate]).
  rewrite String.eqb_eq. split; [by intros ->|by intros [= ->]].
Qed.

Lemma type_filter_matches type t :
  type_matches
    (if negb (strict_equals_string type "all") then Some type else None) t = true
  ↔ passes_type_filter type t.
Proof.
  unfold passes_type_filter.
  destruct (strict_equals_string type "all") eqn:E; simpl.
  - apply strict_equals_string_true in E. split; [by left|done].
  - split; [by right|]. intros [->|Hv]; [|done].
    vm_compute in E. discriminate.
Qed.

Lemma date_between_matches lo hi d :
  date_matches (DateBetween (Some lo) (Some hi)) d = true
  ↔ ∃ ms, d = JDate ms ∧ lo ≤ ms ≤ hi.
Proof.
  destruct d; unfold date_matches; try (split; [discriminate|by intros (? & [=] & _)]).
  rewrite andb_true_iff, !Z.leb_le. split.
  - intros ?. by eexists.
  - by intros (? & [= <-] & ?).
Qed.

Lemma date_after_matches lo d :
  date_matches (DateAfter (Some lo)) d = true ↔ ∃ ms, d = JDate ms ∧ lo < ms.
Proof.
  destruct d; unfold date_matches; try (split; [discriminate|by intros (? & [=] & _)]).
  rewrite Z.ltb_lt. split.
  - intros ?. by eexists.
  - by intros (? & [= <-] & ?).
Qed.

(** What a listing answers for a known user: the sorted matches of the
    filter it builds, or the fetch error when the filter cannot be cast. *)
Lemma getAll_known_user userId type frequency startDate endDate now db :
  truthy userId = true →
  is_Some (findById (Users db) userId) →
  getAllTransactionController userId type frequency startDate endDate now db
  = match find_sorted (list_query userId type frequency startDate endDate now)
            (Transactions db) with
    | Some found => mkResponse 200 (TransactionList true found)
    | None => json_message 500 false "Error fetching transactions. Please try again."
    end.
Proof.
  intros Ht [[uid u] Hu].
  unfold getAllTransactionController, try_getAllTransaction, await_find_sorted.
  rewrite Ht, (await_findById_found _ _ _ _ _ Hu). simpl.
  by destruct (find_sorted _ _).
Qed.

(** C7, as amended.  With [frequency = "custom"] and both dates supplied and
    valid, a listing for an existing user answers exactly the stored
    transactions of that user that pass the type filter and whose date lies
    in [[startOfDay(startDate), endOfDay(endDate)]], both ends included. *)
Theorem list_custom_window userId type frequency startDate endDate now db s e :
  truthy userId = true →
  is_Some (findById (Users db) userId) →
  frequency = JStr "custom" →
  truthy startDate = true →
  truthy endDate = true →
  moment_parse startDate = Some s →
  moment_parse endDate = Some e →
  ∃ found,
    getAllTransactionController userId type frequency startDate endDate now db
    = mkResponse 200 (TransactionList true found)
    ∧ ∀ k t, (k, t) ∈ found
             ↔ Transactions db !! k = Some t
               ∧ owned_by userId t
               ∧ passes_type_filter type t
               ∧ ∃ ms, date t = JDate ms ∧ startOf_day s ≤ ms ≤ endOf_day e.
Proof.
  intros Hu Hk -> Hs He Ps Pe.
  rewrite (getAll_known_user _ _ _ _ _ _ _ Hu Hk).
  destruct (find_sorted _ _) as [found|] eqn:F.
  - exists found. split; [done|]. intros k t.
    rewrite (elem_of_find_sorted _ _ _ _ _ F).
    unfold query_matches, list_query. simpl. rewrite Hs, He, Ps, Pe. simpl.
    rewrite !andb_true_iff, owner_matches_true, type_filter_matches.
    rewrite date_between_matches. tauto.
  - unfold find_sorted, list_query in F. simpl in F.
    rewrite Hs, He, Ps, Pe in F. done.
Qed.

(** C3, as amended.  When [frequency] is not ["custom"], a listing for an
    existing user answers exactly the stored transactions of that user that
    pass the type filter and whose date is after [startOfDay(now - w days)],
    where [w] is 7 whenever [Number(frequency)] is NaN and [w] is
    [frequency] whenever it is (or converts to) a positive integer. *)
Theorem list_frequency_window userId type frequency startDate endDate now db w t0 :
  truthy userId = true →
  is_Some (findById (Users db) userId) →
  frequency ≠ JStr "custom" →
  (Number frequency = JNaN ∧ w = 7) ∨ (0 < w ∧ Number frequency = num_of_Z w) →
  subtract_days (num_of_Z w) now = Some t0 →
  ∃ found,
    getAllTransactionController userId type frequency startDate endDate now db
    = mkResponse 200 (TransactionList true found)
    ∧ ∀ k t, (k, t) ∈ found
             ↔ Transactions db !! k = Some t
               ∧ owned_by userId t
               ∧ passes_type_filter type t
               ∧ ∃ ms, date t = JDate ms ∧ startOf_day t0 < ms.
Proof.
  intros Hu Hk Hf Hw Ht0.
  assert (strict_equals_string frequency "custom" = false) as Hc.
  { destruct (strict_equals_string frequency "custom") eqn:E; [|done].
    by apply strict_equals_string_true in E. }
  assert (num_or (Number frequency) (num_of_Z 7) = num_of_Z w) as Hn.
  { destruct Hw as [[-> ->]|[Hpos ->]]; [done|].
    unfold num_or, num_of_Z. simpl.
    destruct (Qeq_bool (inject_Z w) 0) eqn:E; [|done].
    apply Qeq_bool_iff in E. unfold Qeq in E. simpl in E. lia. }
  rewrite (getAll_known_user _ _ _ _ _ _ _ Hu Hk).
  destruct (find_sorted _ _) as [found|] eqn:F.
  - exists found. split; [done|]. intros k t.
    rewrite (elem_of_find_sorted _ _ _ _ _ F).
    unfold query_matches, list_query. simpl. rewrite Hc, Hn, Ht0. simpl.
    rewrite !andb_true_iff, owner_matches_true, type_filter_matches.
    rewrite date_after_matches. tauto.
  - unfold find_sorted, list_query in F. simpl in F.
    rewrite Hc, Hn, Ht0 in F. done.
Qed.

(** C10.  With [frequency = "custom"] and a start or end date that is absent
    or falsy, a listing for an existing user does not fail: it answers
    exactly the stored transactions of that user that pass the type filter,
    whatever their date. *)
Theorem list_custom_without_dates userId type frequency startDate endDate now db :
  truthy userId = true →
  is_Some (findById (Users db) userId) →
  frequency = JStr "custom" →
  truthy startDate = false ∨ truthy endDate = false →
  ∃ found,
    getAllTransactionController userId type frequency startDate endDate now db
    = mkResponse 200 (TransactionList true found)
    ∧ ∀ k t, (k, t) ∈ found
             ↔ Transactions db !! k = Some t
               ∧ owned_by userId t
               ∧ passes_type_filter type t.
Proof.
  intros Hu Hk -> Hd.
  assert (truthy startDate && truthy endDate = false) as Hb
    by (destruct Hd as [-> | ->]; [done|apply andb_false_r]).
  rewrite (getAll_known_user _ _ _ _ _ _ _ Hu Hk).
  assert (list_query userId type (JStr "custom") startDate endDate now
          = mkQuery userId
              (if negb (strict_equals_string type "all") then Some type else None)
              NoDateFilter) as ->.
  { unfold list_query. simpl. by rewrite Hb. }
  unfold find_sorted. simpl. eexists. split; [done|]. intros k t.
  rewrite merge_sort_Permutation, elem_of_map_to_list, map_lookup_filter_Some.
  simpl. unfold query_matches. simpl.
  rewrite Is_true_true, !andb_true_iff, owner_matches_true, type_filter_matches.
  tauto.
Qed.

End Listing.

Section ListingRuns.
Local Existing Instance utc_host.

(** The spec's own example of a custom window: January 2024, every type. *)
Lemma list_custom_window_witness :
  ∃ found,
    getAllTransactionController (H := utc_host) (JStr alice) (JStr "all")
      (JStr "custom") (JStr "2024-01-01") (JStr "2024-01-31") sample_now sample_db
    = mkResponse 200 (TransactionList true found)
    ∧ ∀ k t, (k, t) ∈ found
             ↔ Transactions sample_db !! k = Some t
               ∧ owned_by (JStr alice) t
               ∧ passes_type_filter (JStr "all") t
               ∧ ∃ ms, date t = JDate ms
                       ∧ @startOf_day utc_host (days_from_civil 2024 1 1 * ms_per_day)
                         ≤ ms
                         ≤ @endOf_day utc_host (days_from_civil 2024 1 31 * ms_per_day).
Proof.
  apply (list_custom_window (H := utc_host)).
  - reflexivity.
  - exists (alice, mkUser [salary_id; rent_id]). vm_compute. reflexivity.
  - reflexivity.
  - reflexivity.
  - reflexivity.
  - vm_compute. reflexivity.
  - vm_compute. reflexivity.
Defined.

(** C7 as stated fails when a type is selected: Alice lists her credits of
    January 2024 and gets her salary only, although her rent is dated inside
    the window as well. *)
Lemma list_custom_type_counterexample :
  getAllTransactionController (H := utc_host) (JStr alice) (JStr "credit")
    (JStr "custom") (JStr "2024-01-01") (JStr "2024-01-31") sample_now sample_db
  = mkResponse 200 (TransactionList true [(salary_id, salary)])
  ∧ Transactions sample_db !! rent_id = Some rent
  ∧ user rent = alice
  ∧ date rent = JDate (noon 2024 1 15)
  ∧ @moment_parse utc_host (JStr "2024-01-01")
    = Some (days_from_civil 2024 1 1 * ms_per_day)
  ∧ @moment_parse utc_host (JStr "2024-01-31")
    = Some (days_from_civil 2024 1 31 * ms_per_day)
  ∧ @startOf_day utc_host (days_from_civil 2024 1 1 * ms_per_day)
    ≤ noon 2024 1 15
    ≤ @endOf_day utc_host (days_from_civil 2024 1 31 * ms_per_day).
Proof.
  repeat split; vm_compute; congruence.
Qed.

(** A 30-day window sent as the string the client's selector holds. *)
Lemma list_frequency_window_witness :
  ∃ found,
    getAllTransactionController (H := utc_host) (JStr alice) (JStr "all")
      (JStr "30") JUndefined JUndefined sample_now sample_db
    = mkResponse 200 (TransactionList true found)
    ∧ ∀ k t, (k, t) ∈ found
             ↔ Transactions sample_db !! k = Some t
               ∧ owned_by (JStr alice) t
               ∧ passes_type_filter (JStr "all") t
               ∧ ∃ ms, date t = JDate ms
                       ∧ @startOf_day utc_host (sample_now - 30 * ms_per_day) < ms.
Proof.
  apply (list_frequency_window (H := utc_host) _ _ _ _ _ _ _ 30).
  - reflexivity.
  - exists (alice, mkUser [salary_id; rent_id]). vm_compute. reflexivity.
  - discriminate.
  - right. split; [lia|]. vm_compute. reflexivity.
  - vm_compute. reflexivity.
Defined.

(** C3 as stated fails at both ends.  With [frequency = 0] the window is 7
    days, not 0: the listing of 2024-01-18 holds the rent of 2024-01-15,
    which is not after the start of 2024-01-18.  With [frequency = -3], not
    a non-negative integer, the window is not the default of 7 days: the
    listing is empty, while a 7-day window holds the rent. *)
Lemma list_frequency_zero_counterexample :
  getAllTransactionController (H := utc_host) (JStr alice) (JStr "all")
    (JNum (num_of_Z 0)) JUndefined JUndefined sample_now sample_db
  = mkResponse 200 (TransactionList true [(rent_id, rent)])
  ∧ @subtract_days utc_host (num_of_Z 0) sample_now = Some sample_now
  ∧ date rent = JDate (noon 2024 1 15)
  ∧ noon 2024 1 15 < @startOf_day utc_host sample_now
  ∧ getAllTransactionController (H := utc_host) (JStr alice) (JStr "all")
      (JNum (num_of_Z (-3))) JUndefined JUndefined sample_now sample_db
    = mkResponse 200 (TransactionList true [])
  ∧ getAllTransactionController (H := utc_host) (JStr alice) (JStr "all")
      (JNum (num_of_Z 7)) JUndefined JUndefined sample_now sample_db
    = mkResponse 200 (TransactionList true [(rent_id, rent)]).
Proof.
  repeat split; vm_compute; congruence.
Qed.

(** A custom listing without an end date. *)
Lemma list_custom_without_dates_witness :
  ∃ found,
    getAllTransactionController (H := utc_host) (JStr alice) (JStr "all")
      (JStr "custom") (JStr "2024-01-01") JUndefined sample_now sample_db
    = mkResponse 200 (TransactionList true found)
    ∧ ∀ k t, (k, t) ∈ found
             ↔ Transactions sample_db !! k = Some t
               ∧ owned_by (JStr alice) t
               ∧ passes_type_filter (JStr "all") t.
Proof.
  apply (list_custom_without_dates (H := utc_host)).
  - reflexivity.
  - exists (alice, mkUser [salary_id; rent_id]). vm_compute. reflexivity.
  - reflexivity.
  - right. reflexivity.
Defined.

End ListingRuns.

(** ** update *)

Section Update.
Context `{H : Host}.

(** The answer of an update that finds its transaction: the five plain
    assignments, then the date, whose cast decides whether [save()] goes
    through. *)
Lemma update_found id new_title new_amount new_description new_date
    new_category new_type db k t :
  findById (Transactions db) (JStr id) = Some (k, t) →
  let t1 := if truthy new_title then set_title new_title t else t in
  let t2 := if truthy new_description then set_description new_description t1
            else t1 in
  let t3 := if truthy new_amount then set_amount new_amount t2 else t2 in
  let t4 := if truthy new_category then set_category new_category t3 else t3 in
  let t5 := if truthy new_type then set_transactionType new_type t4 else t4 in
  let saved (t' : TransactionDoc) :=
    (mkResponse 200
       (MessageAndTransaction true "Transaction Updated Successfully" (k, t')),
     mkDb (Users db) (<[k := t']> (Transactions db))) in
  updateTransactionController id new_title new_amount new_description new_date
    new_category new_type db
  = if truthy new_date then
      match castDate new_date with
      | Some ms => saved (set_date (JDate ms) t5)
      | None =>
          (mkResponse 401
             (Messages false
                (err_message (ValidationError "Transaction" "date" new_date))),
           db)
      end
    else saved t5.
Proof.
  intros Hf. cbv zeta.
  unfold updateTransactionController, try_updateTransaction.
  rewrite (await_findById_found _ _ _ _ _ Hf). simpl.
  destruct (truthy new_date); [|done].
  unfold assign_date. by destruct (castDate new_date).
Qed.

(** C4, as amended.  An update of a stored transaction in which a truthy
    date is a valid date answers 200 with the stored document in which each
    of title, description, amount, category and transactionType is the
    supplied value when that value is truthy and the prior value otherwise,
    and the date is the Date of the supplied value when that is truthy and
    the prior date otherwise; the owner is untouched.  In particular an
    update with only [{ amount: 50 }] sets the amount and nothing else. *)
Theorem update_overwrites_truthy_fields
    id new_title new_amount new_description new_date new_category new_type db k t :
  as_id (JStr id) = Some k →
  Transactions db !! k = Some t →
  (truthy new_date = true → is_Some (castDate new_date)) →
  (∃ t',
     updateTransactionController id new_title new_amount new_description
       new_date new_category new_type db
     = (mkResponse 200
          (MessageAndTransaction true "Transaction Updated Successfully" (k, t')),
        mkDb (Users db) (<[k := t']> (Transactions db)))
     ∧ title t' = (if truthy new_title then new_title else title t)
     ∧ description t'
       = (if truthy new_description then new_description else description t)
     ∧ amount t' = (if truthy new_amount then new_amount else amount t)
     ∧ category t' = (if truthy new_category then new_category else category t)
     ∧ transactionType t'
       = (if truthy new_type then new_type else transactionType t)
     ∧ (truthy new_date = false → date t' = date t)
     ∧ (∀ ms, truthy new_date = true → castDate new_date = Some ms →
              date t' = JDate ms)
     ∧ user t' = user t)
  ∧ updateTransactionController id JUndefined (JNum (num_of_Z 50)) JUndefined
      JUndefined JUndefined JUndefined db
    = (mkResponse 200
         (MessageAndTransaction true "Transaction Updated Successfully"
            (k, set_amount (JNum (num_of_Z 50)) t)),
       mkDb (Users db)
         (<[k := set_amount (JNum (num_of_Z 50)) t]> (Transactions db))).
Proof.
  intros Hid Ht Hdate.
  assert (findById (Transactions db) (JStr id) = Some (k, t)) as Hf
    by (by apply findById_Some).
  split; [|by rewrite (update_found _ _ _ _ _ _ _ _ _ _ Hf)].
  rewrite (update_found _ _ _ _ _ _ _ _ _ _ Hf). cbv zeta.
  destruct (truthy new_date) eqn:Hd.
  - destruct (Hdate eq_refl) as [ms Hms]. rewrite Hms.
    eexists. split; [reflexivity|].
    destruct (truthy new_title), (truthy new_description), (truthy new_amount),
      (truthy new_category), (truthy new_type);
      repeat split; try done; by intros ms' _ [= <-].
  - eexists. split; [reflexivity|].
    destruct (truthy new_title), (truthy new_description), (truthy new_amount),
      (truthy new_category), (truthy new_type);
      repeat split; done.
Qed.

(** C9, as amended.  The update handler takes no owner and checks none:
    whichever owner the stored transaction has, known to the User collection
    or not, an update in which a truthy date is a valid date answers 200 and
    saves the document with the supplied truthy values in place, under that
    same owner. *)
Theorem update_ignores_owner
    id new_title new_amount new_description new_date new_category new_type db k t :
  as_id (JStr id) = Some k →
  Transactions db !! k = Some t →
  (truthy new_date = true → is_Some (castDate new_date)) →
  ∀ owner,
    ∃ t',
      updateTransactionController id new_title new_amount new_description
        new_date new_category new_type
        (mkDb (Users db) (<[k := with_owner owner t]> (Transactions db)))
      = (mkResponse 200
           (MessageAndTransaction true "Transaction Updated Successfully" (k, t')),
         mkDb (Users db) (<[k := t']> (Transactions db)))
      ∧ user t' = owner
      ∧ title t' = (if truthy new_title then new_title else title t)
      ∧ description t'
        = (if truthy new_description then new_description else description t)
      ∧ amount t' = (if truthy new_amount then new_amount else amount t)
      ∧ category t' = (if truthy new_category then new_category else category t)
      ∧ transactionType t'
        = (if truthy new_type then new_type else transactionType t)
      ∧ (truthy new_date = false → date t' = date t)
      ∧ (∀ ms, truthy new_date = true → castDate new_date = Some ms →
               date t' = JDate ms).
Proof.
  intros Hid Ht Hdate owner.
  assert (findById
            (Transactions
               (mkDb (Users db) (<[k := with_owner owner t]> (Transactions db))))
            (JStr id) = Some (k, with_owner owner t)) as Hf.
  { apply findById_Some. split; [done|]. simpl. apply lookup_insert_eq. }
  rewrite (update_found _ _ _ _ _ _ _ _ _ _ Hf). cbv zeta. simpl.
  destruct (truthy new_date) eqn:Hd.
  - destruct (Hdate eq_refl) as [ms Hms]. rewrite Hms, insert_insert_eq.
    eexists. split; [reflexivity|].
    destruct (truthy new_title), (truthy new_description), (truthy new_amount),
      (truthy new_category), (truthy new_type);
      repeat split; try done; by intros ms' _ [= <-].
  - rewrite insert_insert_eq. eexists. split; [reflexivity|].
    destruct (truthy new_title), (truthy new_description), (truthy new_amount),
      (truthy new_category), (truthy new_type);
      repeat split; done.
Qed.

End Update.

Section UpdateRuns.
Local Existing Instance utc_host.

(** A new title and a new date for the rent; the other values are falsy. *)
Lemma update_overwrites_truthy_fields_witness :
  (∃ t',
     updateTransactionController rent_id (JStr "Flat") JUndefined (JStr "")
       (JStr "2024-01-16") (JNum (num_of_Z 0)) (JBool false) sample_db
     = (mkResponse 200
          (MessageAndTransaction true "Transaction Updated Successfully"
             (rent_id, t')),
        mkDb (Users sample_db) (<[rent_id := t']> (Transactions sample_db)))
     ∧ title t' = JStr "Flat"
     ∧ description t' = description rent
     ∧ amount t' = amount rent
     ∧ category t' = category rent
     ∧ transactionType t' = transactionType rent
     ∧ (truthy (JStr "2024-01-16") = false → date t' = date rent)
     ∧ (∀ ms, truthy (JStr "2024-01-16") = true →
              castDate (JStr "2024-01-16") = Some ms → date t' = JDate ms)
     ∧ user t' = user rent)
  ∧ updateTransactionController rent_id JUndefined (JNum (num_of_Z 50)) JUndefined
      JUndefined JUndefined JUndefined sample_db
    = (mkResponse 200
         (MessageAndTransaction true "Transaction Updated Successfully"
            (rent_id, set_amount (JNum (num_of_Z 50)) rent)),
       mkDb (Users sample_db)
         (<[rent_id := set_amount (JNum (num_of_Z 50)) rent]> (Transactions sample_db))).
Proof.
  apply (update_overwrites_truthy_fields rent_id (JStr "Flat") JUndefined
           (JStr "") (JStr "2024-01-16") (JNum (num_of_Z 0)) (JBool false)
           sample_db rent_id rent).
  - vm_compute. reflexivity.
  - vm_compute. reflexivity.
  - intros _. eexists. vm_compute. reflexivity.
Defined.

(** C4 as stated fails when a truthy date is no date: the rent is sent a new
    title together with the date "garbage"; [save()] rejects the document,
    the answer is the 401 of the catch block, and the title, although
    supplied and truthy, is not overwritten. *)
Lemma update_invalid_date_counterexample :
  let result :=
    updateTransactionController rent_id (JStr "Flat") JUndefined JUndefined
      (JStr "garbage") JUndefined JUndefined sample_db in
  Transactions sample_db !! rent_id = Some rent
  ∧ truthy (JStr "Flat") = true
  ∧ truthy (JStr "garbage") = true
  ∧ status (fst result) = 401
  ∧ success_of (fst result) = false
  ∧ Transactions (snd result) !! rent_id = Some rent
  ∧ title rent = JStr "Rent".
Proof.
  repeat split; vm_compute; congruence.
Qed.

(** Bob's gift, put under an owner that the User collection does not know,
    is renamed by a request that names no user at all. *)
Lemma update_ignores_owner_witness :
  let owner := "65a1f0c2e4b0a1b2c3d4e5ff" in
  ∃ t',
    updateTransactionController gift_id (JStr "Present") JUndefined JUndefined
      JUndefined JUndefined JUndefined
      (mkDb (Users sample_db)
         (<[gift_id := with_owner owner gift]> (Transactions sample_db)))
    = (mkResponse 200
         (MessageAndTransaction true "Transaction Updated Successfully"
            (gift_id, t')),
       mkDb (Users sample_db) (<[gift_id := t']> (Transactions sample_db)))
    ∧ user t' = owner
    ∧ title t' = JStr "Present"
    ∧ description t' = description gift
    ∧ amount t' = amount gift
    ∧ category t' = category gift
    ∧ transactionType t' = transactionType gift
    ∧ (truthy JUndefined = false → date t' = date gift)
    ∧ (∀ ms, truthy JUndefined = true → castDate JUndefined = Some ms →
             date t' = JDate ms).
Proof.
  apply (update_ignores_owner gift_id (JStr "Present") JUndefined JUndefined
           JUndefined JUndefined JUndefined sample_db gift_id gift).
  - vm_compute. reflexivity.
  - vm_compute. reflexivity.
  - discriminate.
Defined.

(** C9 as stated fails when a truthy date is no date: Bob's gift exists, yet
    an update of its amount sent with the date "soon" is not applied and
    does not succeed. *)
Lemma update_not_applied_counterexample :
  let result :=
    updateTransactionController gift_id JUndefined (JNum (num_of_Z 55))
      JUndefined (JStr "soon") JUndefined JUndefined sample_db in
  Transactions sample_db !! gift_id = Some gift
  ∧ status (fst result) = 401
  ∧ success_of (fst result) = false
  ∧ snd result = sample_db
  ∧ amount gift = JNum (num_of_Z 40).
Proof.
  repeat split; vm_compute; congruence.
Qed.

End UpdateRuns.

(** ** create *)

Lemma trim_empty_string : trim "" = "".
Proof. reflexivity. Qed.

Lemma length_zero_empty (s : string) :
  Nat.eqb (String.length s) 0 = true ↔ s = "".
Proof. destruct s; simpl; split; congruence. Qed.

Lemma not_a_non_empty_string_false v :
  not_a_non_empty_string v = false ↔ non_empty_text v.
Proof.
  unfold not_a_non_empty_string, non_empty_text. split.
  - intros Hc. apply orb_false_iff in Hc as [Hc Hlen].
    apply orb_false_iff in Hc as [_ Hty].
    destruct v; try discriminate Hty. exists s. split; [done|].
    intros E. apply length_zero_empty in E. congruence.
  - intros (s & -> & Hs). simpl.
    destruct (String.eqb_spec s "") as [->|_]; [done|]. simpl.
    destruct (Nat.eqb (String.length (trim s)) 0) eqn:E; [|done].
    by apply length_zero_empty in E.
Qed.

Lemma not_a_positive_number_false v :
  not_a_positive_number v = false ↔ positive_number v.
Proof.
  unfold not_a_positive_number, positive_number.
  destruct v as [| |b|n|s|ms|hex];
    try (split; [|done]; intros Hc; apply orb_false_iff in Hc as [Hc _];
         apply orb_false_iff in Hc as [_ Hc]; vm_compute in Hc; discriminate Hc).
  destruct n as [|q| |]; simpl; try (split; [discriminate|done]); [|done].
  rewrite negb_involutive, orb_false_r, orb_false_iff. split.
  - intros [_ Hle]. apply Qnot_le_lt. intros Hq.
    apply Qle_bool_iff in Hq. congruence.
  - intros Hq. split.
    + destruct (Qeq_bool q 0) eqn:E; [|done]. apply Qeq_bool_iff in E.
      rewrite E in Hq. by apply Qlt_irrefl in Hq.
    + destruct (Qle_bool q 0) eqn:E; [|done]. apply Qle_bool_iff in E.
      by apply Qle_not_lt in E.
Qed.

Lemma not_a_transaction_type_false v :
  not_a_transaction_type v = false ↔ credit_or_expense v.
Proof.
  unfold not_a_transaction_type, credit_or_expense. split.
  - intros Hc. apply orb_false_iff in Hc as [_ Hc].
    apply negb_false_iff in Hc. simpl in Hc. rewrite orb_false_r in Hc.
    apply orb_true_iff in Hc as [Hc|Hc];
      apply strict_equals_string_true in Hc; auto.
  - by intros [-> | ->].
Qed.

Section Create.
Context `{H : Host}.

Lemma not_a_valid_date_false v : not_a_valid_date v = false ↔ valid_date v.
Proof.
  unfold not_a_valid_date, valid_date, moment_isValid.
  rewrite orb_false_iff, !negb_false_iff.
  destruct (moment_parse v) as [x|]; split.
  - intros [Hv _]. split; [done|by eexists].
  - by intros [Hv _].
  - by intros [_ Hp].
  - by intros [_ [x Hp]].
Qed.

(** C8.  The create handler checks title, amount, date, category,
    transactionType and the owner in this order: the first check that fails
    fixes the answer, whatever the fields of the later checks hold, and the
    store is left as it was.  The owner check has three answers: a missing
    owner, an owner that is no identifier (the lookup throws and the catch
    block answers 401) and an identifier of no user.  The messages of the
    checks are pairwise distinct, and the 401 is none of the 400 answers. *)
Theorem create_validation_order
    title amount description date category userId transactionType newId db :
  let result :=
    addTransactionController title amount description date category userId
      transactionType newId db in
  let rejected (m : string) := result = (json_message 400 false m, db) in
  (¬ non_empty_text title → rejected "Title must be a non-empty string")
  ∧ (non_empty_text title → ¬ positive_number amount →
     rejected "Amount must be a positive number")
  ∧ (non_empty_text title → positive_number amount → ¬ valid_date date →
     rejected "Please provide a valid date")
  ∧ (non_empty_text title → positive_number amount → valid_date date →
     ¬ non_empty_text category →
     rejected "Category must be a non-empty string")
  ∧ (non_empty_text title → positive_number amount → valid_date date →
     non_empty_text category → ¬ credit_or_expense transactionType →
     rejected "Transaction type must be either 'credit' or 'expense'")
  ∧ (non_empty_text title → positive_number amount → valid_date date →
     non_empty_text category → credit_or_expense transactionType →
     truthy userId = false →
     rejected "User ID is required")
  ∧ (non_empty_text title → positive_number amount → valid_date date →
     non_empty_text category → credit_or_expense transactionType →
     truthy userId = true → cast_fails userId = true →
     result
     = (mkResponse 401
          (Messages false
             (err_message (CastError "ObjectId" userId "_id" "User"))),
        db))
  ∧ (non_empty_text title → positive_number amount → valid_date date →
     non_empty_text category → credit_or_expense transactionType →
     truthy userId = true → cast_fails userId = false →
     findById (Users db) userId = None →
     rejected "User not found")
  ∧ NoDup validation_messages
  ∧ (∀ text m, mkResponse 401 (Messages false text) ≠ json_message 400 false m).
Proof.
  intros result rejected.
  unfold rejected, result, addTransactionController, try_addTransaction.
  rewrite <- !not_a_non_empty_string_false, <- not_a_positive_number_false,
    <- not_a_valid_date_false, <- not_a_transaction_type_false.
  repeat split.
  - intros Ht. apply not_false_is_true in Ht. by rewrite Ht.
  - intros -> Ha. apply not_false_is_true in Ha. by rewrite Ha.
  - intros -> -> Hd. apply not_false_is_true in Hd. by rewrite Hd.
  - intros -> -> -> Hc. apply not_false_is_true in Hc. by rewrite Hc.
  - intros -> -> -> -> Hty. apply not_false_is_true in Hty. by rewrite Hty.
  - by intros -> -> -> -> -> ->.
  - intros -> -> -> -> -> -> Hc. unfold await_findById. by rewrite Hc.
  - intros -> -> -> -> -> -> Hc Hf. unfold await_findById. by rewrite Hc, Hf.
  - compute_done.
  - done.
Qed.

(** C5.  A create request whose amount is not a positive number (for
    instance -5) is answered with the validation status and a failure flag,
    and leaves both collections as they were; when the title is valid the
    answer is the amount message. *)
Theorem create_rejects_bad_amount
    title amount description date category userId transactionType newId db :
  ¬ positive_number amount →
  let result :=
    addTransactionController title amount description date category userId
      transactionType newId db in
  status (fst result) = constants.VALIDATION_ERROR
  ∧ success_of (fst result) = false
  ∧ snd result = db
  ∧ (non_empty_text title →
     fst result = json_message 400 false "Amount must be a positive number").
Proof.
  intros Ha result. unfold result, addTransactionController, try_addTransaction.
  rewrite <- not_a_positive_number_false in Ha.
  rewrite <- not_a_non_empty_string_false.
  destruct (not_a_non_empty_string title); [by repeat split|].
  destruct (not_a_positive_number amount); [by repeat split|done].
Qed.

(** A valid request by a known user, with a date that the store can cast,
    stores the transaction under the new identifier and appends that
    identifier to the owner's references. *)
Lemma create_valid_request
    title amount description date category userId transactionType newId db uid u ms :
  non_empty_text title → positive_number amount → valid_date date →
  non_empty_text category → credit_or_expense transactionType →
  truthy userId = true → findById (Users db) userId = Some (uid, u) →
  castDate date = Some ms →
  addTransactionController title amount description date category userId
    transactionType newId db
  = (json_message 200 true "Transaction Added Successfully",
     mkDb (<[uid := mkUser (transactions u ++ [newId])]> (Users db))
          (<[newId := mkTransaction title amount category description
                        (JDate ms) uid transactionType]> (Transactions db))).
Proof.
  rewrite <- !not_a_non_empty_string_false, <- not_a_positive_number_false,
    <- not_a_valid_date_false, <- not_a_transaction_type_false.
  intros Ht Ha Hd Hc Hty Hu Hf Hms.
  unfold addTransactionController, try_addTransaction, Transaction_create.
  rewrite Ht, Ha, Hd, Hc, Hty, Hu, (await_findById_found _ _ _ _ _ Hf), Hms.
  done.
Qed.

(** A create either leaves the store as it was and fails, or stores the
    transaction and links it to the user found. *)
Lemma addTransaction_outcome
    title amount description date category userId transactionType newId db :
  let result :=
    addTransactionController title amount description date category userId
      transactionType newId db in
  (status (fst result) ≠ 200 ∧ success_of (fst result) = false ∧ snd result = db)
  ∨ (∃ uid u ms,
       findById (Users db) userId = Some (uid, u)
       ∧ castDate date = Some ms
       ∧ result
         = (json_message 200 true "Transaction Added Successfully",
            mkDb (<[uid := mkUser (transactions u ++ [newId])]> (Users db))
                 (<[newId := mkTransaction title amount category description
                               (JDate ms) uid transactionType]> (Transactions db)))).
Proof.
  intros result.
  unfold result, addTransactionController, try_addTransaction, await_findById,
    Transaction_create.
  destruct (not_a_non_empty_string title); [by left|].
  destruct (not_a_positive_number amount); [by left|].
  destruct (not_a_valid_date date); [by left|].
  destruct (not_a_non_empty_string category); [by left|].
  destruct (not_a_transaction_type transactionType); [by left|].
  destruct (negb (truthy userId)); [by left|].
  destruct (cast_fails userId); [by left|]. simpl.
  destruct (findById (Users db) userId) as [[uid u]|]; [|by left]. simpl.
  destruct (castDate date) as [ms|]; [|by left].
  right. by exists uid, u, ms.
Qed.

End Create.

Section CreateRuns.
Local Existing Instance utc_host.

(** The spec's example, an amount of -5, with every other field valid. *)
Lemma create_rejects_bad_amount_witness :
  let result :=
    addTransactionController (JStr "Coffee")
      (JNum (num_of_Z (-5))) JUndefined (JStr "2024-01-17") (JStr "Food")
      (JStr alice) (JStr "expense") "65b2a7d9e4b0a1b2c3d4e604" sample_db in
  status (fst result) = constants.VALIDATION_ERROR
  ∧ success_of (fst result) = false
  ∧ snd result = sample_db
  ∧ (non_empty_text (JStr "Coffee") →
     fst result = json_message 400 false "Amount must be a positive number").
Proof.
  apply (create_rejects_bad_amount (H := utc_host)).
  vm_compute. intros Hq. discriminate Hq.
Defined.

(** A request that passes the first two checks and fails the third, with a
    category that would fail the fourth. *)
Lemma create_validation_order_witness :
  addTransactionController (JStr "Coffee") (JNum (num_of_Z 4))
    JUndefined (JStr "2024-02-30") (JStr "  ") (JStr alice) (JStr "loan")
    "65b2a7d9e4b0a1b2c3d4e604" sample_db
  = (json_message 400 false "Please provide a valid date", sample_db).
Proof.
  apply (create_validation_order (H := utc_host) (JStr "Coffee")
           (JNum (num_of_Z 4)) JUndefined (JStr "2024-02-30") (JStr "  ")
           (JStr alice) (JStr "loan") "65b2a7d9e4b0a1b2c3d4e604" sample_db).
  - exists "Coffee". split; [reflexivity|]. vm_compute. discriminate.
  - vm_compute. reflexivity.
  - intros [_ [x Hx]]. vm_compute in Hx. discriminate Hx.
Defined.

End CreateRuns.

(** ** getOne *)

Section GetOne.
Context `{H : Host}.

(** The answer of a single read whose identifier and user are present and
    can be cast. *)
Lemma getOne_casts id userId db k :
  id ≠ "" → truthy userId = true →
  as_id (JStr id) = Some k → cast_fails userId = false →
  getSingleTransactionController id userId db
  = match Transactions db !! k with
    | Some t =>
        if owner_matches userId t
        then mkResponse 200 (OneTransaction true (k, t))
        else json_message 404 false "Transaction not found"
    | None => json_message 404 false "Transaction not found"
    end.
Proof.
  intros Hid Hu Hk Hc. unfold getSingleTransactionController, await_findOne.
  apply String.eqb_neq in Hid.
  rewrite Hid, Hu, (as_id_casts _ _ Hk), Hc. simpl.
  unfold findById. rewrite Hk.
  destruct (Transactions db !! k) as [t|]; [|done].
  by destruct (owner_matches userId t).
Qed.

(** The owner of a transaction gets it. *)
Lemma getOne_own_record id userId db k t :
  id ≠ "" → truthy userId = true →
  as_id (JStr id) = Some k →
  Transactions db !! k = Some t → owned_by userId t →
  getSingleTransactionController id userId db
  = mkResponse 200 (OneTransaction true (k, t)).
Proof.
  intros Hid Hu Hk Ht Ho.
  assert (cast_fails userId = false) as Hc.
  { unfold owned_by in Ho. by apply as_id_casts in Ho. }
  rewrite (getOne_casts _ _ _ _ Hid Hu Hk Hc), Ht.
  apply owner_matches_true in Ho. by rewrite Ho.
Qed.

(** A single read of an identifier under which the store holds nothing that
    the user owns answers without looking at anything else in the store. *)
Lemma getOne_nothing_owned id userId db :
  (∀ k t, as_id (JStr id) = Some k → Transactions db !! k = Some t →
          ¬ owned_by userId t) →
  getSingleTransactionController id userId db
  = getSingleTransactionController id userId (mkDb ∅ ∅).
Proof.
  intros Hno. unfold getSingleTransactionController, await_findOne.
  destruct (String.eqb id "" || negb (truthy userId)); [done|].
  destruct (cast_fails (JStr id)); [done|].
  destruct (cast_fails userId); [done|]. simpl.
  unfold findById. destruct (as_id (JStr id)) as [k|] eqn:Hk; [|done].
  rewrite lookup_empty.
  destruct (Transactions db !! k) as [t|] eqn:Ht; [|done].
  destruct (owner_matches userId t) eqn:O; [|done].
  apply owner_matches_true in O. by destruct (Hno k t).
Qed.

(** C6, as amended.  For a request whose identifier and user are present
    and can be cast: when no stored transaction has both that identifier and
    that owner the answer is the 404 "Transaction not found".  For every
    request: the answer for a transaction stored under another owner is the
    very answer given when no transaction has that identifier. *)
Theorem getOne_hides_foreign_records id userId :
  (∀ k db,
     id ≠ "" → truthy userId = true →
     as_id (JStr id) = Some k → cast_fails userId = false →
     (∀ t, Transactions db !! k = Some t → ¬ owned_by userId t) →
     getSingleTransactionController id userId db
     = json_message constants.NOT_FOUND false "Transaction not found")
  ∧ (∀ db1 db2,
       (∀ k t, as_id (JStr id) = Some k → Transactions db1 !! k = Some t →
               ¬ owned_by userId t) →
       (∀ k, as_id (JStr id) = Some k → Transactions db2 !! k = None) →
       getSingleTransactionController id userId db1
       = getSingleTransactionController id userId db2).
Proof.
  split.
  - intros k db Hid Hu Hk Hc Hno.
    rewrite (getOne_casts _ _ _ _ Hid Hu Hk Hc).
    destruct (Transactions db !! k) as [t|] eqn:E; [|done].
    destruct (owner_matches userId t) eqn:O; [|done].
    apply owner_matches_true in O. by destruct (Hno t).
  - intros db1 db2 H1 H2.
    rewrite (getOne_nothing_owned id userId db1 H1).
    rewrite (getOne_nothing_owned id userId db2); [done|].
    intros k t Hk Ht. rewrite (H2 k Hk) in Ht. done.
Qed.

End GetOne.

Section GetOneRuns.
Local Existing Instance utc_host.

(** Alice asks for Bob's gift: the answer is the one she would get had the
    gift never been stored. *)
Lemma getOne_hides_foreign_records_witness :
  getSingleTransactionController gift_id (JStr alice) sample_db
  = json_message constants.NOT_FOUND false "Transaction not found"
  ∧ getSingleTransactionController gift_id (JStr alice) sample_db
    = getSingleTransactionController gift_id (JStr alice)
        (mkDb (Users sample_db) (delete gift_id (Transactions sample_db))).
Proof.
  destruct (getOne_hides_foreign_records gift_id (JStr alice)) as [Hnf Hsame].
  split.
  - apply (Hnf gift_id).
    + discriminate.
    + reflexivity.
    + vm_compute. reflexivity.
    + reflexivity.
    + intros t Ht. vm_compute in Ht. injection Ht as <-.
      vm_compute. discriminate.
  - apply Hsame.
    + intros k t Hk Ht. vm_compute in Hk. injection Hk as <-.
      vm_compute in Ht. injection Ht as <-. vm_compute. discriminate.
    + intros k Hk. vm_compute in Hk. injection Hk as <-.
      vm_compute. reflexivity.
Defined.

(** C6 as stated fails for a request that is not answered by the lookup:
    without a user the answer is the 400 of the guard, and with an
    identifier that cannot be cast the lookup throws and the answer is the
    500 of the catch block; no transaction has the identifier in either
    case, yet neither answer is the 404. *)
Lemma getOne_not_found_counterexample :
  status (getSingleTransactionController gift_id JUndefined sample_db) = 400
  ∧ status (getSingleTransactionController "abc" (JStr alice) sample_db) = 500
  ∧ Transactions sample_db !! "abc" = None
  ∧ as_id (JStr "abc") = None
  ∧ (∀ t, Transactions sample_db !! gift_id = Some t →
          as_id JUndefined ≠ Some (user t)).
Proof.
  repeat split; vm_compute; congruence.
Qed.

End GetOneRuns.

(** ** More on create *)

Lemma filter_eq_absent (x : string) (l : list string) :
  x ∉ l → filter (λ k, k = x) l = [].
Proof.
  induction l as [|y l IH]; [done|]. intros Hx.
  apply not_elem_of_cons in Hx as [Hxy Hl].
  rewrite filter_cons_False by congruence. by apply IH.
Qed.

Section MoreCreate.
Context `{H : Host}.

(** X1.  A valid create by a known user, with a date the store can cast,
    answers 200, stores the new document under the new identifier with the
    supplied fields, the date as a Date and the user as owner, and appends
    the identifier to that user's references; no other transaction and no
    other user changes.  When the identifier was not referenced before, it
    is referenced exactly once afterwards. *)
Theorem create_stores_and_links
    title amount description date category userId transactionType newId db uid u ms :
  non_empty_text title → positive_number amount → valid_date date →
  non_empty_text category → credit_or_expense transactionType →
  truthy userId = true → findById (Users db) userId = Some (uid, u) →
  castDate date = Some ms →
  let result :=
    addTransactionController title amount description date category userId
      transactionType newId db in
  fst result = json_message 200 true "Transaction Added Successfully"
  ∧ Transactions (snd result) !! newId
    = Some (mkTransaction title amount category description (JDate ms) uid
              transactionType)
  ∧ (∀ k, k ≠ newId → Transactions (snd result) !! k = Transactions db !! k)
  ∧ Users (snd result) !! uid = Some (mkUser (transactions u ++ [newId]))
  ∧ (∀ k, k ≠ uid → Users (snd result) !! k = Users db !! k)
  ∧ (newId ∉ transactions u →
     filter (λ k, k = newId) (transactions u ++ [newId])%list = [newId]).
Proof.
  intros Ht Ha Hd Hc Hty Hu Hf Hms result. unfold result.
  rewrite (create_valid_request _ _ _ _ _ _ _ _ _ _ _ _ Ht Ha Hd Hc Hty Hu Hf Hms).
  simpl. repeat split.
  - apply lookup_insert_eq.
  - intros k Hk. by apply lookup_insert_ne.
  - apply lookup_insert_eq.
  - intros k Hk. by apply lookup_insert_ne.
  - intros Hnew. rewrite filter_app, (filter_eq_absent _ _ Hnew).
    by rewrite filter_cons_True.
Qed.

(** X2.  Round trip: after a valid create the owner reads the new
    transaction back by its identifier, with the fields as supplied and the
    date as the Date the store cast it to. *)
Theorem create_then_getOne
    title amount description date category userId transactionType newId db ms :
  non_empty_text title → positive_number amount → valid_date date →
  non_empty_text category → credit_or_expense transactionType →
  truthy userId = true → is_Some (findById (Users db) userId) →
  castDate date = Some ms →
  newId ≠ "" → as_id (JStr newId) = Some newId →
  ∃ uid,
    as_id userId = Some uid
    ∧ getSingleTransactionController newId userId
        (snd (addTransactionController title amount description date category
                userId transactionType newId db))
      = mkResponse 200
          (OneTransaction true
             (newId,
              mkTransaction title amount category description (JDate ms) uid
                transactionType)).
Proof.
  intros Ht Ha Hd Hc Hty Hu [[uid u] Hf] Hms Hid Hcan.
  rewrite (create_valid_request _ _ _ _ _ _ _ _ _ _ _ _ Ht Ha Hd Hc Hty Hu Hf Hms).
  apply findById_Some in Hf as [Hid' _]. exists uid. split; [done|].
  apply getOne_own_record; [done|done|done| |done]. simpl. apply lookup_insert_eq.
Qed.

(** X3.  Create keeps the reference invariant: whatever the request, when
    the new identifier is not yet a stored transaction, a store whose
    references are consistent stays so. *)
Theorem create_preserves_refs_consistent
    title amount description date category userId transactionType newId db :
  refs_consistent db →
  Transactions db !! newId = None →
  refs_consistent
    (snd (addTransactionController title amount description date category
            userId transactionType newId db)).
Proof.
  intros Hinv Hfresh.
  destruct (addTransaction_outcome title amount description date category
              userId transactionType newId db)
    as [(_ & _ & ->)|(uid & u & ms & Hf & _ & ->)];
    [done|].
  apply findById_Some in Hf as [_ Hu].
  intros uid' u' k Hu' Hk. simpl in *.
  destruct (decide (uid' = uid)) as [->|Hne].
  - rewrite lookup_insert_eq in Hu'. injection Hu' as <-. simpl in Hk.
    apply elem_of_app in Hk as [Hk|Hk].
    + destruct (Hinv uid u k Hu Hk) as (t & Ht & Ho).
      exists t. split; [|done]. rewrite lookup_insert_ne; [done|congruence].
    + apply list_elem_of_singleton in Hk as ->. eexists.
      split; [apply lookup_insert_eq|done].
  - rewrite lookup_insert_ne in Hu' by done.
    destruct (Hinv uid' u' k Hu' Hk) as (t & Ht & Ho).
    exists t. split; [|done]. rewrite lookup_insert_ne; [done|congruence].
Qed.

End MoreCreate.

Lemma sample_db_refs_consistent : refs_consistent sample_db.
Proof.
  intros uid u k Hu Hk. unfold sample_db in *. simpl in *.
  destruct (decide (uid = alice)) as [->|Ha].
  - rewrite lookup_insert_eq in Hu. injection Hu as <-. simpl in Hk.
    apply elem_of_cons in Hk as [->|Hk].
    { exists salary. split; [|done]. vm_compute. reflexivity. }
    apply list_elem_of_singleton in Hk as ->.
    exists rent. split; [|done]. vm_compute. reflexivity.
  - rewrite lookup_insert_ne in Hu by done.
    destruct (decide (uid = bob)) as [->|Hb].
    + rewrite lookup_insert_eq in Hu. injection Hu as <-. simpl in Hk.
      apply list_elem_of_singleton in Hk as ->.
      exists gift. split; [|done]. vm_compute. reflexivity.
    + rewrite lookup_insert_ne in Hu by done. by rewrite lookup_empty in Hu.
Qed.

Section MoreCreateRuns.
Local Existing Instance utc_host.

Lemma create_stores_and_links_witness :
  let newId := "65b2a7d9e4b0a1b2c3d4e604" in
  let result :=
    addTransactionController (JStr "Coffee") (JNum (num_of_Z 4))
      JUndefined (JStr "2024-01-17") (JStr "Food") (JStr alice) (JStr "expense")
      newId sample_db in
  fst result = json_message 200 true "Transaction Added Successfully"
  ∧ Transactions (snd result) !! newId
    = Some (mkTransaction (JStr "Coffee") (JNum (num_of_Z 4)) (JStr "Food")
              JUndefined (JDate (days_from_civil 2024 1 17 * ms_per_day)) alice
              (JStr "expense"))
  ∧ (∀ k, k ≠ newId → Transactions (snd result) !! k = Transactions sample_db !! k)
  ∧ Users (snd result) !! alice = Some (mkUser ([salary_id; rent_id] ++ [newId]))
  ∧ (∀ k, k ≠ alice → Users (snd result) !! k = Users sample_db !! k)
  ∧ (newId ∉ [salary_id; rent_id] →
     filter (λ k, k = newId) ([salary_id; rent_id] ++ [newId])%list = [newId]).
Proof.
  apply (create_stores_and_links (H := utc_host) (JStr "Coffee")
           (JNum (num_of_Z 4)) JUndefined (JStr "2024-01-17") (JStr "Food")
           (JStr alice) (JStr "expense") "65b2a7d9e4b0a1b2c3d4e604" sample_db
           alice (mkUser [salary_id; rent_id])
           (days_from_civil 2024 1 17 * ms_per_day)).
  - exists "Coffee". split; [reflexivity|]. vm_compute. discriminate.
  - vm_compute. reflexivity.
  - split; [reflexivity|]. eexists. vm_compute. reflexivity.
  - exists "Food". split; [reflexivity|]. vm_compute. discriminate.
  - right. reflexivity.
  - reflexivity.
  - vm_compute. reflexivity.
  - vm_compute. reflexivity.
Defined.

Lemma create_then_getOne_witness :
  ∃ uid,
    as_id (JStr alice) = Some uid
    ∧ getSingleTransactionController "65b2a7d9e4b0a1b2c3d4e604" (JStr alice)
        (snd (addTransactionController (JStr "Coffee")
                (JNum (num_of_Z 4)) JUndefined (JStr "2024-01-17") (JStr "Food")
                (JStr alice) (JStr "expense") "65b2a7d9e4b0a1b2c3d4e604"
                sample_db))
      = mkResponse 200
          (OneTransaction true
             ("65b2a7d9e4b0a1b2c3d4e604",
              mkTransaction (JStr "Coffee") (JNum (num_of_Z 4)) (JStr "Food")
                JUndefined (JDate (days_from_civil 2024 1 17 * ms_per_day)) uid
                (JStr "expense"))).
Proof.
  apply (create_then_getOne (H := utc_host)).
  - exists "Coffee". split; [reflexivity|]. vm_compute. discriminate.
  - vm_compute. reflexivity.
  - split; [reflexivity|]. eexists. vm_compute. reflexivity.
  - exists "Food". split; [reflexivity|]. vm_compute. discriminate.
  - right. reflexivity.
  - reflexivity.
  - eexists. vm_compute. reflexivity.
  - vm_compute. reflexivity.
  - discriminate.
  - vm_compute. reflexivity.
Defined.

Lemma create_preserves_refs_consistent_witness :
  refs_consistent
    (snd (addTransactionController (JStr "Coffee")
            (JNum (num_of_Z 4)) JUndefined (JStr "2024-01-17") (JStr "Food")
            (JStr alice) (JStr "expense") "65b2a7d9e4b0a1b2c3d4e604" sample_db)).
Proof.
  apply (create_preserves_refs_consistent (H := utc_host)).
  - exact sample_db_refs_consistent.
  - vm_compute. reflexivity.
Defined.

End MoreCreateRuns.

(** ** Answers and the store *)

Section Answers.
Context `{H : Host}.

(** What a bulk delete answers, by cases on the request and the store. *)
Lemma deleteMany_outcome transactionIds userId db :
  let result := deleteMultipleTransactionsController transactionIds userId db in
  (status (fst result) ≠ 200 ∧ success_of (fst result) = false ∧ snd result = db)
  ∨ (∃ ids uid u,
       transactionIds = Array ids
       ∧ findById (Users db) userId = Some (uid, u)
       ∧ Forall (λ v, cast_fails v = false) ids
       ∧ status (fst result) = 200 ∧ success_of (fst result) = true
       ∧ snd result
         = mkDb (<[uid := mkUser
                            (List.filter (λ k, negb (includes_string ids k))
                               (transactions u))]> (Users db))
                (filter (λ kt, ¬ Is_true (deleteMany_matches ids userId kt))
                   (Transactions db))).
Proof.
  intros result. unfold result.
  destruct transactionIds as [v|[|v ids]]; [by left|by left|].
  destruct (findById (Users db) userId) as [[uid u]|] eqn:Hu.
  - destruct (List.find cast_fails (v :: ids)) as [bad|] eqn:F.
    + left.
      unfold deleteMultipleTransactionsController,
        try_deleteMultipleTransactions.
      rewrite (await_findById_found _ _ _ _ _ Hu).
      unfold try_bind at 1. unfold ret at 1. cbv iota beta.
      unfold await_deleteMany. rewrite F. done.
    + apply find_cast_fails_None in F.
      rewrite (deleteMany_no_throw v ids userId db uid u Hu F). cbv zeta.
      destruct (Nat.eqb _ 0); [by left|].
      right. by exists (v :: ids), uid, u.
  - left.
    unfold deleteMultipleTransactionsController, try_deleteMultipleTransactions,
      await_findById.
    destruct (cast_fails userId); [done|]. simpl. by rewrite Hu.
Qed.

(** What a single delete answers when it does not succeed. *)
Lemma deleteTransaction_failure transactionId userId db :
  success_of (fst (deleteTransactionController transactionId userId db)) = false →
  status (fst (deleteTransactionController transactionId userId db)) ≠ 200
  ∧ snd (deleteTransactionController transactionId userId db) = db.
Proof.
  unfold deleteTransactionController, try_deleteTransaction, await_findById.
  destruct (cast_fails userId); [done|]. simpl.
  destruct (findById (Users db) userId) as [[uid u]|]; [|done]. simpl.
  destruct (cast_fails (JStr transactionId)); [done|]. simpl.
  by destruct (findById (Transactions db) (JStr transactionId)) as [[k t]|].
Qed.

(** What an update answers: a failure that leaves the store as it was, or a
    saved document. *)
Lemma update_outcome id new_title new_amount new_description new_date
    new_category new_type db :
  let result :=
    updateTransactionController id new_title new_amount new_description
      new_date new_category new_type db in
  (status (fst result) ≠ 200 ∧ success_of (fst result) = false ∧ snd result = db)
  ∨ (∃ k t t',
       findById (Transactions db) (JStr id) = Some (k, t)
       ∧ user t' = user t
       ∧ result
         = (mkResponse 200
              (MessageAndTransaction true "Transaction Updated Successfully"
                 (k, t')),
            mkDb (Users db) (<[k := t']> (Transactions db)))).
Proof.
  intros result. unfold result.
  destruct (findById (Transactions db) (JStr id)) as [[k t]|] eqn:Hf.
  - rewrite (update_found _ _ _ _ _ _ _ _ _ _ Hf). cbv zeta.
    destruct (truthy new_date).
    + destruct (castDate new_date) as [ms|]; [|by left].
      right. exists k, t. eexists. split; [done|]. split; [|reflexivity].
      by destruct (truthy new_title), (truthy new_description),
        (truthy new_amount), (truthy new_category), (truthy new_type).
    + right. exists k, t. eexists. split; [done|]. split; [|reflexivity].
      by destruct (truthy new_title), (truthy new_description),
        (truthy new_amount), (truthy new_category), (truthy new_type).
  - left. unfold updateTransactionController, try_updateTransaction,
      await_findById.
    destruct (cast_fails (JStr id)); [done|]. simpl. by rewrite Hf.
Qed.

(** X4.  A request that is answered with [success: false] leaves both
    collections exactly as they were, in each of the four handlers that
    write; for the bulk delete this includes the 404 given after the delete
    has already been issued. *)
Theorem failed_requests_leave_store :
  (∀ title amount description date category userId transactionType newId db,
     let result :=
       addTransactionController title amount description date category userId
         transactionType newId db in
     success_of (fst result) = false → snd result = db)
  ∧ (∀ transactionIds userId db,
       let result := deleteMultipleTransactionsController transactionIds userId db in
       success_of (fst result) = false → snd result = db)
  ∧ (∀ transactionId userId db,
       let result := deleteTransactionController transactionId userId db in
       success_of (fst result) = false → snd result = db)
  ∧ (∀ transactionId title amount description date category transactionType db,
       let result :=
         updateTransactionController transactionId title amount description
           date category transactionType db in
       success_of (fst result) = false → snd result = db).
Proof.
  repeat split.
  - intros title amount description date category userId transactionType newId db.
    destruct (addTransaction_outcome title amount description date category
                userId transactionType newId db)
      as [(_ & _ & Hdb)|(uid & u & ms & _ & _ & E)]; [done|].
    simpl. by rewrite E.
  - intros transactionIds userId db.
    destruct (deleteMany_outcome transactionIds userId db)
      as [(_ & _ & Hdb)|(ids & uid & u & _ & _ & _ & _ & Hs & _)]; [done|].
    simpl in *. by rewrite Hs.
  - intros transactionId userId db result Hs.
    by apply deleteTransaction_failure in Hs as [_ ?].
  - intros transactionId title amount description date category transactionType db.
    destruct (update_outcome transactionId title amount description date
                category transactionType db)
      as [(_ & _ & Hdb)|(k & t & t' & _ & _ & E)]; [done|].
    simpl. by rewrite E.
Qed.

(** X5.  In all six handlers the [success] flag of the answer is true
    exactly when its status is 200. *)
Theorem success_flag_matches_status :
  (∀ title amount description date category userId transactionType newId db,
     let r :=
       fst (addTransactionController title amount description date category
              userId transactionType newId db) in
     status r = 200 ↔ success_of r = true)
  ∧ (∀ userId type frequency startDate endDate now db,
       let r :=
         getAllTransactionController userId type frequency startDate endDate
           now db in
       status r = 200 ↔ success_of r = true)
  ∧ (∀ transactionIds userId db,
       let r := fst (deleteMultipleTransactionsController transactionIds userId db) in
       status r = 200 ↔ success_of r = true)
  ∧ (∀ id userId db,
       let r := getSingleTransactionController id userId db in
       status r = 200 ↔ success_of r = true)
  ∧ (∀ transactionId userId db,
       let r := fst (deleteTransactionController transactionId userId db) in
       status r = 200 ↔ success_of r = true)
  ∧ (∀ transactionId title amount description date category transactionType db,
       let r :=
         fst (updateTransactionController transactionId title amount description
                date category transactionType db) in
       status r = 200 ↔ success_of r = true).
Proof.
  repeat apply conj.
  - intros title amount description date category userId transactionType newId db.
    destruct (addTransaction_outcome title amount description date category
                userId transactionType newId db)
      as [(Hs & Hf & _)|(uid & u & ms & _ & _ & E)]; simpl in *.
    + rewrite Hf. by split.
    + by rewrite E.
  - intros userId type frequency startDate endDate now db r.
    unfold r, getAllTransactionController, try_getAllTransaction,
      await_findById, await_find_sorted.
    destruct (negb (truthy userId)); [by split|].
    destruct (cast_fails userId); [by split|]. simpl.
    destruct (findById (Users db) userId); [|by split]. simpl.
    by destruct (find_sorted _ _).
  - intros transactionIds userId db.
    destruct (deleteMany_outcome transactionIds userId db)
      as [(Hs & Hf & _)|(ids & uid & u & _ & _ & _ & Hs & Hf & _)];
      simpl in *.
    + rewrite Hf. by split.
    + rewrite Hs, Hf. by split.
  - intros id userId db r.
    unfold r, getSingleTransactionController, await_findOne.
    destruct (String.eqb id "" || negb (truthy userId)); [by split|].
    destruct (cast_fails (JStr id)); [by split|].
    destruct (cast_fails userId); [by split|]. simpl.
    destruct (findById (Transactions db) (JStr id)) as [[k t]|]; [|by split].
    by destruct (owner_matches userId t).
  - intros transactionId userId db r. unfold r.
    destruct (success_of (fst (deleteTransactionController transactionId userId db)))
      eqn:Hs.
    + apply deleteTransaction_success in Hs as (? & ? & ? & ? & _ & _ & ->).
      by split.
    + apply deleteTransaction_failure in Hs as [Hs _]. by split.
  - intros transactionId title amount description date category transactionType db.
    destruct (update_outcome transactionId title amount description date
                category transactionType db)
      as [(Hs & Hf & _)|(k & t & t' & _ & _ & E)]; simpl in *.
    + rewrite Hf. by split.
    + by rewrite E.
Qed.

End Answers.

(** ** More on list *)

Lemma num_leb_total a b : num_leb a b = true ∨ num_leb b a = true.
Proof.
  destruct a as [|p| |], b as [|q| |]; simpl; auto.
  destruct (Qlt_le_dec p q) as [Hlt|Hle].
  - left. apply Qle_bool_iff. by apply Qlt_le_weak.
  - right. by apply Qle_bool_iff.
Qed.

Lemma value_leb_total a b : value_leb a b = true ∨ value_leb b a = true.
Proof.
  destruct a, b; simpl; auto using num_leb_total, String.leb_total.
  - destruct b, b0; auto.
  - destruct (Z.le_ge_cases ms ms0); [left|right]; by apply Z.leb_le.
Qed.

Global Instance date_desc_total : Total date_desc.
Proof.
  intros a b. unfold date_desc.
  destruct (value_leb_total (date b.2) (date a.2)) as [E|E]; rewrite E; auto.
Qed.

Global Instance dated_newer_first_trans : Transitive dated_newer_first.
Proof.
  intros a b c (x & y & Ha & Hb & Hxy) (y' & z & Hb' & Hc & Hyz).
  rewrite Hb in Hb'. injection Hb' as <-. exists x, z. repeat split; [done..|lia].
Qed.

Lemma date_matches_dated f d :
  f ≠ NoDateFilter → date_matches f d = true → ∃ ms, d = JDate ms.
Proof.
  intros Hf. destruct f as [|[lo|] [hi|]|[lo|]]; try done;
    destruct d; unfold date_matches; try done; by eexists.
Qed.

Lemma Sorted_dated (l : list (string * TransactionDoc)) :
  Sorted date_desc l →
  Forall dated l →
  StronglySorted dated_newer_first l.
Proof.
  intros Hs Hd. apply Sorted_StronglySorted; [apply _|].
  induction Hs as [|a l Hs IH Hhd]; [constructor|].
  apply Forall_cons in Hd as [[x Hx] Hd]. constructor; [by apply IH|].
  destruct Hhd as [|b l Hab]; constructor.
  apply Forall_cons in Hd as [[y Hy] _].
  unfold date_desc in Hab. rewrite Hx, Hy in Hab. simpl in Hab.
  exists x, y. repeat split; [done..|]. apply Z.leb_le. by apply Is_true_true.
Qed.

Section MoreListing.
Context `{H : Host}.

(** A 200 answer of a listing carries the sorted matches of its filter, and
    is only given to a present, known user. *)
Lemma getAll_answers_list
    userId type frequency startDate endDate now db found :
  getAllTransactionController userId type frequency startDate endDate now db
  = mkResponse 200 (TransactionList true found) →
  truthy userId = true
  ∧ is_Some (findById (Users db) userId)
  ∧ find_sorted (list_query userId type frequency startDate endDate now)
      (Transactions db) = Some found.
Proof.
  unfold getAllTransactionController, try_getAllTransaction, await_findById,
    await_find_sorted.
  destruct (truthy userId); [|done]. simpl.
  destruct (cast_fails userId); [done|]. simpl.
  destruct (findById (Users db) userId) as [p|]; [|done]. simpl.
  destruct (find_sorted _ _) as [l|]; [|done]. simpl.
  intros [= <-]. repeat split. by eexists.
Qed.

(** X6.  Whatever the type, frequency and dates of the request, every
    transaction a listing returns is stored, is owned by the requested user
    and passes the type filter, and no transaction is returned twice. *)
Theorem list_returns_only_own
    userId type frequency startDate endDate now db found :
  getAllTransactionController userId type frequency startDate endDate now db
  = mkResponse 200 (TransactionList true found) →
  NoDup found
  ∧ ∀ k t, (k, t) ∈ found →
           Transactions db !! k = Some t
           ∧ owned_by userId t
           ∧ passes_type_filter type t.
Proof.
  intros E. apply getAll_answers_list in E as (_ & _ & F). split.
  - unfold find_sorted in F. destruct (date_filter_casts _); [|done].
    injection F as <-. rewrite merge_sort_Permutation.
    apply NoDup_map_to_list.
  - intros k t Hin. apply (elem_of_find_sorted _ _ _ _ _ F) in Hin as [Hk Hq].
    unfold query_matches, list_query in Hq. simpl in Hq.
    apply andb_true_iff in Hq as [Hq _]. apply andb_true_iff in Hq as [Ho Hty].
    split; [done|]. split; [by apply owner_matches_true|].
    by apply type_filter_matches.
Qed.

(** X7.  A listing is ordered by date, newest first: neighbours are in the
    order of [.sort({ date: -1 })], and when a date condition applies
    (frequency other than ["custom"], or both custom dates given) every
    returned transaction carries a Date and none is older than one after it
    in the list. *)
Theorem list_newest_first
    userId type frequency startDate endDate now db found :
  getAllTransactionController userId type frequency startDate endDate now db
  = mkResponse 200 (TransactionList true found) →
  Sorted date_desc found
  ∧ (frequency ≠ JStr "custom"
     ∨ (truthy startDate = true ∧ truthy endDate = true) →
     Forall dated found ∧ StronglySorted dated_newer_first found).
Proof.
  intros E. apply getAll_answers_list in E as (_ & _ & F).
  assert (Sorted date_desc found) as Hs.
  { unfold find_sorted in F. destruct (date_filter_casts _); [|done].
    injection F as <-. apply Sorted_merge_sort. apply _. }
  split; [done|]. intros Hcond.
  assert (Forall dated found) as Hd.
  { apply Forall_forall. intros [k t] Hin.
    apply (elem_of_find_sorted _ _ _ _ _ F) in Hin as [_ Hq].
    unfold query_matches in Hq. apply andb_true_iff in Hq as [_ Hd].
    apply (date_matches_dated _ _) in Hd; [done|].
    unfold list_query. simpl.
    destruct (strict_equals_string frequency "custom") eqn:Ec.
    - apply strict_equals_string_true in Ec.
      destruct Hcond as [Hn|[-> ->]]; [done|]. done.
    - done. }
  split; [done|]. by apply Sorted_dated.
Qed.

(** X10.  Listings read the Transaction collection only: after a successful
    single delete, by whichever user, a listing that was answered before is
    answered again and holds what it held, less the deleted transaction. *)
Theorem list_after_deleteOne
    transactionId deleter userId type frequency startDate endDate now db found :
  success_of (fst (deleteTransactionController transactionId deleter db)) = true →
  getAllTransactionController userId type frequency startDate endDate now db
  = mkResponse 200 (TransactionList true found) →
  ∃ deleted found',
    as_id (JStr transactionId) = Some deleted
    ∧ getAllTransactionController userId type frequency startDate endDate now
        (snd (deleteTransactionController transactionId deleter db))
      = mkResponse 200 (TransactionList true found')
    ∧ ∀ k t, (k, t) ∈ found' ↔ (k, t) ∈ found ∧ k ≠ deleted.
Proof.
  intros Hs E.
  apply deleteTransaction_success in Hs as (uid & u & k0 & t0 & _ & Hk0 & ->).
  apply findById_Some in Hk0 as [Hk0 _].
  apply getAll_answers_list in E as (Hu & [[k1 u1] Hk] & F). simpl.
  assert (is_Some (findById (<[uid := mkUser []]> (Users db)) userId)) as Hk'.
  { apply findById_Some in Hk as [Hid Hl]. unfold findById. rewrite Hid.
    destruct (decide (uid = k1)) as [->|Hne].
    - rewrite lookup_insert_eq. by eexists.
    - rewrite lookup_insert_ne, Hl by done. by eexists. }
  exists k0.
  rewrite (getAll_known_user userId type frequency startDate endDate now
             (mkDb (<[uid := mkUser []]> (Users db))
                   (delete k0 (Transactions db))) Hu Hk').
  simpl.
  assert (date_filter_casts
            (q_date (list_query userId type frequency startDate endDate now))
          = true) as Hc.
  { unfold find_sorted in F. by destruct (date_filter_casts _). }
  destruct (find_sorted _ (delete _ _)) as [found'|] eqn:F'.
  - exists found'. split; [done|]. split; [done|]. intros k t.
    rewrite (elem_of_find_sorted _ _ _ _ _ F'), (elem_of_find_sorted _ _ _ _ _ F).
    rewrite lookup_delete_Some. split; [intros [[? ?] ?]|intros [[? ?] ?]]; auto.
  - unfold find_sorted in F'. by rewrite Hc in F'.
Qed.

(** X11.  A frequency whose number is falsy (0, NaN: an absent or
    non-numeric frequency) is listed exactly as frequency 7. *)
Theorem list_falsy_frequency_is_seven
    userId type frequency startDate endDate now db :
  frequency ≠ JStr "custom" →
  num_truthy (Number frequency) = false →
  getAllTransactionController userId type frequency startDate endDate now db
  = getAllTransactionController userId type (JNum (num_of_Z 7)) startDate
      endDate now db.
Proof.
  intros Hf Hn.
  unfold getAllTransactionController, try_getAllTransaction, list_query.
  assert (strict_equals_string frequency "custom" = false) as ->.
  { destruct (strict_equals_string frequency "custom") eqn:E; [|done].
    by apply strict_equals_string_true in E. }
  simpl. unfold num_or. by rewrite Hn.
Qed.

(** X22.  A transaction just created is listed: after a valid create whose
    date the store casts to a Date inside the window of a frequency
    listing, that listing, for the same user and every type, is answered
    with 200 and holds the new transaction. *)
Theorem create_then_list
    title amount description date category userId transactionType newId db ms
    frequency startDate endDate now w t0 :
  non_empty_text title → positive_number amount → valid_date date →
  non_empty_text category → credit_or_expense transactionType →
  truthy userId = true → is_Some (findById (Users db) userId) →
  castDate date = Some ms →
  frequency ≠ JStr "custom" →
  (Number frequency = JNaN ∧ w = 7) ∨ (0 < w ∧ Number frequency = num_of_Z w) →
  subtract_days (num_of_Z w) now = Some t0 →
  startOf_day t0 < ms →
  ∃ uid found,
    as_id userId = Some uid
    ∧ getAllTransactionController userId (JStr "all") frequency startDate
        endDate now
        (snd (addTransactionController title amount description date category
                userId transactionType newId db))
      = mkResponse 200 (TransactionList true found)
    ∧ (newId,
       mkTransaction title amount category description (JDate ms) uid
         transactionType) ∈ found.
Proof.
  intros Ht Ha Hd Hc Hty Hu [[uid u] Hf] Hms Hfr Hw Ht0 Hlt.
  rewrite (create_valid_request _ _ _ _ _ _ _ _ _ _ _ _ Ht Ha Hd Hc Hty Hu Hf Hms).
  pose proof (proj1 (findById_Some _ _ _ _) Hf) as [Hid _].
  exists uid.
  assert (is_Some (findById (<[uid := mkUser (transactions u ++ [newId])]> (Users db))
                     userId)) as Hk'.
  { unfold findById. rewrite Hid, lookup_insert_eq. by eexists. }
  assert (strict_equals_string frequency "custom" = false) as Hcu.
  { destruct (strict_equals_string frequency "custom") eqn:E; [|done].
    by apply strict_equals_string_true in E. }
  assert (num_or (Number frequency) (num_of_Z 7) = num_of_Z w) as Hn.
  { destruct Hw as [[-> ->]|[Hpos ->]]; [done|].
    unfold num_or, num_of_Z. simpl.
    destruct (Qeq_bool (inject_Z w) 0) eqn:E; [|done].
    apply Qeq_bool_iff in E. unfold Qeq in E. simpl in E. lia. }
  simpl.
  rewrite (getAll_known_user userId (JStr "all") frequency startDate endDate now
             (mkDb (<[uid := mkUser (transactions u ++ [newId])]> (Users db))
                   (<[newId := mkTransaction title amount category description
                                 (JDate ms) uid transactionType]>
                      (Transactions db))) Hu Hk').
  destruct (find_sorted _ _) as [found|] eqn:F.
  - exists found. split; [done|]. split; [done|].
    apply (elem_of_find_sorted _ _ _ _ _ F). simpl.
    split; [apply lookup_insert_eq|].
    unfold query_matches, list_query. simpl. rewrite Hcu, Hn, Ht0. simpl.
    rewrite !andb_true_iff. split; [split|].
    + apply owner_matches_true. exact Hid.
    + done.
    + apply date_after_matches. by exists ms.
  - unfold find_sorted, list_query in F. simpl in F.
    rewrite Hcu, Hn, Ht0 in F. done.
Qed.

End MoreListing.

Section MoreListingRuns.
Local Existing Instance utc_host.

Lemma list_returns_only_own_witness :
  NoDup [(rent_id, rent); (salary_id, salary)]
  ∧ ∀ k t, (k, t) ∈ [(rent_id, rent); (salary_id, salary)] →
           Transactions sample_db !! k = Some t
           ∧ owned_by (JStr alice) t
           ∧ passes_type_filter (JStr "all") t.
Proof.
  apply (list_returns_only_own (H := utc_host) (JStr alice) (JStr "all")
           (JStr "30") JUndefined JUndefined sample_now sample_db).
  vm_compute. reflexivity.
Defined.

Lemma list_newest_first_witness :
  Sorted date_desc [(rent_id, rent); (salary_id, salary)]
  ∧ (JStr "30" ≠ JStr "custom"
     ∨ (truthy JUndefined = true ∧ truthy JUndefined = true) →
     Forall dated [(rent_id, rent); (salary_id, salary)]
     ∧ StronglySorted dated_newer_first [(rent_id, rent); (salary_id, salary)]).
Proof.
  apply (list_newest_first (H := utc_host) (JStr alice) (JStr "all")
           (JStr "30") JUndefined JUndefined sample_now sample_db).
  vm_compute. reflexivity.
Defined.

Lemma list_after_deleteOne_witness :
  ∃ deleted found',
    as_id (JStr salary_id) = Some deleted
    ∧ getAllTransactionController (JStr alice) (JStr "all")
        (JStr "30") JUndefined JUndefined sample_now
        (snd (deleteTransactionController salary_id (JStr alice) sample_db))
      = mkResponse 200 (TransactionList true found')
    ∧ ∀ k t, (k, t) ∈ found'
             ↔ (k, t) ∈ [(rent_id, rent); (salary_id, salary)] ∧ k ≠ deleted.
Proof.
  apply (list_after_deleteOne (H := utc_host) salary_id (JStr alice) (JStr alice)
           (JStr "all") (JStr "30") JUndefined JUndefined sample_now sample_db).
  - vm_compute. reflexivity.
  - vm_compute. reflexivity.
Defined.

Lemma list_falsy_frequency_is_seven_witness :
  getAllTransactionController (JStr alice) (JStr "all")
    (JNum (num_of_Z 0)) JUndefined JUndefined sample_now sample_db
  = getAllTransactionController (JStr alice) (JStr "all")
      (JNum (num_of_Z 7)) JUndefined JUndefined sample_now sample_db.
Proof.
  apply (list_falsy_frequency_is_seven (H := utc_host)).
  - discriminate.
  - reflexivity.
Defined.

(** The coffee of 2024-01-17 is in the 30-day listing of 2024-01-18. *)
Lemma create_then_list_witness :
  let newId := "65b2a7d9e4b0a1b2c3d4e604" in
  ∃ uid found,
    as_id (JStr alice) = Some uid
    ∧ getAllTransactionController (JStr alice) (JStr "all") (JStr "30")
        JUndefined JUndefined sample_now
        (snd (addTransactionController (JStr "Coffee") (JNum (num_of_Z 4))
                JUndefined (JStr "2024-01-17") (JStr "Food") (JStr alice)
                (JStr "expense") newId sample_db))
      = mkResponse 200 (TransactionList true found)
    ∧ (newId,
       mkTransaction (JStr "Coffee") (JNum (num_of_Z 4)) (JStr "Food")
         JUndefined (JDate (days_from_civil 2024 1 17 * ms_per_day)) uid
         (JStr "expense")) ∈ found.
Proof.
  apply (create_then_list (H := utc_host) (JStr "Coffee") (JNum (num_of_Z 4))
           JUndefined (JStr "2024-01-17") (JStr "Food") (JStr alice)
           (JStr "expense") "65b2a7d9e4b0a1b2c3d4e604" sample_db
           (days_from_civil 2024 1 17 * ms_per_day) (JStr "30") JUndefined
           JUndefined sample_now 30 (sample_now - 30 * ms_per_day)).
  - exists "Coffee". split; [reflexivity|]. vm_compute. discriminate.
  - vm_compute. reflexivity.
  - split; [reflexivity|]. eexists. vm_compute. reflexivity.
  - exists "Food". split; [reflexivity|]. vm_compute. discriminate.
  - right. reflexivity.
  - reflexivity.
  - eexists. vm_compute. reflexivity.
  - vm_compute. reflexivity.
  - discriminate.
  - right. split; [lia|]. vm_compute. reflexivity.
  - vm_compute. reflexivity.
  - vm_compute. reflexivity.
Defined.

End MoreListingRuns.

(** ** More on deleteOne *)

Section MoreDeleteOne.
Context `{H : Host}.

(** X8.  A single delete is not scoped by owner: any known user deletes any
    stored transaction.  The transaction is gone, every other transaction is
    untouched, and the document of every user but the requester is
    untouched, so a reference held by the real owner stays behind. *)
Theorem deleteOne_ignores_owner transactionId userId db uid u k t :
  findById (Users db) userId = Some (uid, u) →
  as_id (JStr transactionId) = Some k →
  Transactions db !! k = Some t →
  let result := deleteTransactionController transactionId userId db in
  fst result = json_message 200 true "Transaction successfully deleted"
  ∧ Transactions (snd result) !! k = None
  ∧ (∀ k', k' ≠ k → Transactions (snd result) !! k' = Transactions db !! k')
  ∧ (∀ owner, owner ≠ uid → Users (snd result) !! owner = Users db !! owner).
Proof.
  intros Hu Hk Ht result.
  assert (findById (Transactions db) (JStr transactionId) = Some (k, t)) as Hf
    by (by apply findById_Some).
  assert (result
          = (json_message 200 true "Transaction successfully deleted",
             mkDb (<[uid := mkUser []]> (Users db)) (delete k (Transactions db))))
    as ->.
  { unfold result, deleteTransactionController, try_deleteTransaction.
    rewrite (await_findById_found _ _ _ _ _ Hu). simpl.
    rewrite (await_findById_found _ _ _ _ _ Hf). simpl.
    replace (List.filter (λ _ : string, false) (transactions u))
      with (@nil string) by (symmetry; apply (strict_filter_nil transactionId)).
    done. }
  simpl. repeat split.
  - apply lookup_delete_eq.
  - intros k' Hk'. by apply lookup_delete_ne.
  - intros owner Ho. by apply lookup_insert_ne.
Qed.

(** X9.  Repeating a successful single delete is answered with 400
    "transaction not found" and changes nothing more. *)
Theorem deleteOne_twice transactionId userId db :
  let once := deleteTransactionController transactionId userId db in
  success_of (fst once) = true →
  deleteTransactionController transactionId userId (snd once)
  = (json_message 400 false "transaction not found", snd once).
Proof.
  intros once Hs.
  apply deleteTransaction_success in Hs as (uid & u & k & t & Hu & Ht & E).
  unfold once. rewrite E. simpl.
  apply findById_Some in Hu as [Hid _]. apply findById_Some in Ht as [Hk _].
  unfold deleteTransactionController, try_deleteTransaction, await_findById.
  rewrite (as_id_casts _ _ Hid), (as_id_casts _ _ Hk). simpl.
  unfold findById at 1. rewrite Hid, lookup_insert_eq. simpl.
  unfold findById. by rewrite Hk, lookup_delete_eq.
Qed.

(** X24.  An identifier that cannot be cast makes the lookup throw, and each
    handler answers from its catch block, with the store as it was: the list
    with its fixed 500 message; create, single delete and update with 401
    and the error text under [messages]; bulk delete and single read with
    500 and the error text under [message]. *)
Theorem malformed_ids_are_caught bad :
  cast_fails bad = true →
  (∀ title amount description date category transactionType newId db,
     non_empty_text title → positive_number amount → valid_date date →
     non_empty_text category → credit_or_expense transactionType →
     truthy bad = true →
     addTransactionController title amount description date category bad
       transactionType newId db
     = (mkResponse 401
          (Messages false (err_message (CastError "ObjectId" bad "_id" "User"))),
        db))
  ∧ (∀ type frequency startDate endDate now db,
       truthy bad = true →
       getAllTransactionController bad type frequency startDate endDate now db
       = json_message 500 false "Error fetching transactions. Please try again.")
  ∧ (∀ v ids db,
       deleteMultipleTransactionsController (Array (v :: ids)) bad db
       = (json_message 500 false
            (err_message (CastError "ObjectId" bad "_id" "User")), db))
  ∧ (∀ transactionId db,
       deleteTransactionController transactionId bad db
       = (mkResponse 401
            (Messages false (err_message (CastError "ObjectId" bad "_id" "User"))),
          db))
  ∧ (∀ id userId db,
       bad = JStr id → id ≠ "" → truthy userId = true →
       getSingleTransactionController id userId db
       = json_message 500 false
           (err_message (CastError "ObjectId" bad "_id" "Transaction")))
  ∧ (∀ id title amount description date category transactionType db,
       bad = JStr id →
       updateTransactionController id title amount description date category
         transactionType db
       = (mkResponse 401
            (Messages false
               (err_message (CastError "ObjectId" bad "_id" "Transaction"))),
          db)).
Proof.
  intros Hbad. repeat apply conj.
  - intros title amount description date category transactionType newId db
      Ht Ha Hd Hc Hty Hu.
    apply not_a_non_empty_string_false in Ht, Hc.
    apply not_a_positive_number_false in Ha.
    apply not_a_valid_date_false in Hd.
    apply not_a_transaction_type_false in Hty.
    unfold addTransactionController, try_addTransaction, await_findById.
    by rewrite Ht, Ha, Hd, Hc, Hty, Hu, Hbad.
  - intros type frequency startDate endDate now db Hu.
    unfold getAllTransactionController, try_getAllTransaction, await_findById.
    by rewrite Hu, Hbad.
  - intros v ids db.
    unfold deleteMultipleTransactionsController, try_deleteMultipleTransactions,
      await_findById.
    by rewrite Hbad.
  - intros transactionId db.
    unfold deleteTransactionController, try_deleteTransaction, await_findById.
    by rewrite Hbad.
  - intros id userId db -> Hid Hu.
    unfold getSingleTransactionController, await_findOne.
    apply String.eqb_neq in Hid. by rewrite Hid, Hu, Hbad.
  - intros id title amount description date category transactionType db ->.
    unfold updateTransactionController, try_updateTransaction, await_findById.
    by rewrite Hbad.
Qed.

End MoreDeleteOne.

Section MoreDeleteOneRuns.
Local Existing Instance utc_host.

(** Alice deletes Bob's gift; Bob still references it. *)
Lemma deleteOne_ignores_owner_witness :
  let result := deleteTransactionController gift_id (JStr alice) sample_db in
  fst result = json_message 200 true "Transaction successfully deleted"
  ∧ Transactions (snd result) !! gift_id = None
  ∧ (∀ k, k ≠ gift_id →
          Transactions (snd result) !! k = Transactions sample_db !! k)
  ∧ (∀ owner, owner ≠ alice →
              Users (snd result) !! owner = Users sample_db !! owner).
Proof.
  apply (deleteOne_ignores_owner gift_id (JStr alice) sample_db alice
           (mkUser [salary_id; rent_id]) gift_id gift).
  - vm_compute. reflexivity.
  - vm_compute. reflexivity.
  - vm_compute. reflexivity.
Defined.

Lemma deleteOne_twice_witness :
  deleteTransactionController salary_id (JStr alice)
    (snd (deleteTransactionController salary_id (JStr alice) sample_db))
  = (json_message 400 false "transaction not found",
     snd (deleteTransactionController salary_id (JStr alice) sample_db)).
Proof.
  apply (deleteOne_twice salary_id (JStr alice) sample_db).
  vm_compute. reflexivity.
Defined.

(** The text "oops" in the place of an identifier. *)
Lemma malformed_ids_are_caught_witness :
  deleteTransactionController salary_id (JStr "oops") sample_db
  = (mkResponse 401
       (Messages false
          (err_message (CastError "ObjectId" (JStr "oops") "_id" "User"))),
     sample_db)
  ∧ getSingleTransactionController "oops" (JStr alice) sample_db
    = json_message 500 false
        (err_message (CastError "ObjectId" (JStr "oops") "_id" "Transaction")).
Proof.
  assert (cast_fails (JStr "oops") = true) as Hbad by reflexivity.
  destruct (malformed_ids_are_caught (JStr "oops") Hbad)
    as (_ & _ & _ & Hdel & Hget & _).
  split.
  - apply Hdel.
  - apply Hget; [reflexivity|discriminate|reflexivity].
Defined.

End MoreDeleteOneRuns.

(** ** More on deleteMany *)

Lemma includes_string_true ids k : includes_string ids k = true ↔ JStr k ∈ ids.
Proof.
  unfold includes_string. rewrite existsb_exists. split.
  - intros (v & Hin & Hv). apply strict_equals_string_true in Hv as ->.
    by apply list_elem_of_In.
  - intros Hin. exists (JStr k). split; [by apply list_elem_of_In|].
    by apply strict_equals_string_true.
Qed.


Section MoreDeleteMany.
Context `{H : Host}.

(** A bulk delete succeeds exactly in the last case of its outcome. *)
Lemma deleteMany_success ids userId db uid u :
  findById (Users db) userId = Some (uid, u) →
  success_of (fst (deleteMultipleTransactionsController (Array ids) userId db))
  = true →
  Forall (λ v, cast_fails v = false) ids
  ∧ snd (deleteMultipleTransactionsController (Array ids) userId db)
    = mkDb (<[uid := mkUser
                       (List.filter (λ k, negb (includes_string ids k))
                          (transactions u))]> (Users db))
           (filter (λ kt, ¬ Is_true (deleteMany_matches ids userId kt))
              (Transactions db)).
Proof.
  intros Hu Hs.
  destruct (deleteMany_outcome (Array ids) userId db)
    as [(_ & Hf & _)|(ids' & uid' & u' & [= <-] & Hu' & Hc & _ & _ & E)].
  - by rewrite Hf in Hs.
  - rewrite Hu in Hu'. by injection Hu' as <- <-.
Qed.


(** After the matches of a filter are deleted the filter matches nothing. *)
Lemma deleteMany_nothing_left ids userId (ts : gmap string TransactionDoc) :
  size (filter (λ kt, Is_true (deleteMany_matches ids userId kt))
          (filter (λ kt, ¬ Is_true (deleteMany_matches ids userId kt)) ts))
  = 0%nat.
Proof.
  apply map_size_empty_iff, map_eq. intros k. rewrite lookup_empty.
  destruct (filter _ (filter _ ts) !! k) as [t|] eqn:Hk; [|done].
  apply map_lookup_filter_Some in Hk as [Hk HP].
  apply map_lookup_filter_Some in Hk as [_ HnP]. done.
Qed.

(** X13.  Repeating a successful bulk delete finds nothing left to delete:
    the same request is then answered with 404 and changes nothing more. *)
Theorem deleteMany_twice transactionIds userId db :
  let once := deleteMultipleTransactionsController transactionIds userId db in
  success_of (fst once) = true →
  deleteMultipleTransactionsController transactionIds userId (snd once)
  = (json_message 404 false "No transactions found to delete", snd once).
Proof.
  intros once Hs.
  destruct (deleteMany_outcome transactionIds userId db)
    as [(_ & Hf & _)|(ids & uid & u & -> & Hu & Hc & _ & _ & E)].
  - fold once in Hf. by rewrite Hf in Hs.
  - fold once in E. rewrite E.
    destruct ids as [|v ids]; [discriminate Hs|].
    apply findById_Some in Hu as [Hid _].
    set (refs := List.filter (λ k, negb (includes_string (v :: ids) k))
                   (transactions u)).
    assert (findById (<[uid := mkUser refs]> (Users db)) userId
            = Some (uid, mkUser refs)) as Hu'.
    { apply findById_Some. split; [done|]. apply lookup_insert_eq. }
    rewrite (deleteMany_no_throw v ids userId
               (mkDb (<[uid := mkUser refs]> (Users db))
                     (filter (λ kt, ¬ Is_true (deleteMany_matches (v :: ids) userId kt))
                        (Transactions db))) uid (mkUser refs) Hu' Hc).
    cbv zeta. cbn [Transactions].
    by rewrite (deleteMany_nothing_left (v :: ids) userId (Transactions db)).
Qed.

(** X14.  A bulk delete whose list holds identifiers in the form the store
    prints them (each listed value that casts to an identifier is the string
    of that identifier) keeps the reference invariant: a store whose
    references are consistent stays so. *)
Theorem deleteMany_preserves_refs_consistent ids userId db :
  refs_consistent db →
  Forall canonical_id ids →
  refs_consistent (snd (deleteMultipleTransactionsController (Array ids) userId db)).
Proof.
  intros Hinv Hcanon.
  destruct (deleteMany_outcome (Array ids) userId db)
    as [(_ & _ & ->)|(ids' & uid & u & [= <-] & Hu & _ & _ & _ & ->)];
    [done|].
  apply findById_Some in Hu as [Hid Hu].
  intros uid' u' k Hu' Hk. simpl in *.
  destruct (decide (uid' = uid)) as [->|Hne].
  - rewrite lookup_insert_eq in Hu'. injection Hu' as <-. simpl in Hk.
    apply list_elem_of_In, filter_In in Hk as [Hk Hinc].
    apply list_elem_of_In in Hk.
    destruct (Hinv uid u k Hu Hk) as (t & Ht & Ho).
    exists t. split; [|done]. apply map_lookup_filter_Some. split; [done|].
    intros HP. apply (deleteMany_selected ids userId uid (k, t) Hid) in HP
      as [(v & Hv & Hcast) _].
    apply negb_true_iff in Hinc. apply not_true_iff_false in Hinc.
    apply Hinc, includes_string_true.
    rewrite Forall_forall in Hcanon. specialize (Hcanon v Hv).
    by rewrite <- (Hcanon k Hcast).
  - rewrite lookup_insert_ne in Hu' by done.
    destruct (Hinv uid' u' k Hu' Hk) as (t & Ht & Ho).
    exists t. split; [|done]. apply map_lookup_filter_Some. split; [done|].
    intros HP. apply (deleteMany_selected ids userId uid (k, t) Hid) in HP
      as [_ Hown].
    simpl in Hown. congruence.
Qed.

(** X21.  After a successful bulk delete the requester no longer reads an
    own transaction that some listed value casts to, and still reads,
    unchanged, an own transaction that no listed value casts to. *)
Theorem deleteMany_then_getOne ids userId db uid u k t :
  findById (Users db) userId = Some (uid, u) →
  success_of (fst (deleteMultipleTransactionsController (Array ids) userId db))
  = true →
  k ≠ "" → truthy userId = true →
  as_id (JStr k) = Some k →
  Transactions db !! k = Some t → user t = uid →
  getSingleTransactionController k userId
    (snd (deleteMultipleTransactionsController (Array ids) userId db))
  = if id_in ids k
    then json_message 404 false "Transaction not found"
    else mkResponse 200 (OneTransaction true (k, t)).
Proof.
  intros Hu Hs Hk Hty Hkk Ht Ho.
  destruct (deleteMany_success _ _ _ _ _ Hu Hs) as [_ ->].
  apply findById_Some in Hu as [Hid _].
  assert (owner_matches userId t = true) as Hom
    by (by apply (owner_matches_as_id _ _ _ Hid)).
  rewrite (getOne_casts _ _ _ _ Hk Hty Hkk (as_id_casts _ _ Hid)).
  cbn [Transactions].
  destruct (id_in ids k) eqn:Hin.
  - rewrite (proj2 (map_lookup_filter_None _ _ _)); [done|].
    right. intros t' Ht' HnP. apply HnP. unfold deleteMany_matches. simpl.
    rewrite Ht in Ht'. injection Ht' as <-. by rewrite Hin, Hom.
  - rewrite (proj2 (map_lookup_filter_Some _ _ k t)).
    + by rewrite Hom.
    + split; [done|]. unfold deleteMany_matches. simpl. rewrite Hin.
      by intros [].
Qed.

End MoreDeleteMany.

Section MoreDeleteManyRuns.
Local Existing Instance utc_host.


Lemma deleteMany_twice_witness :
  let ids := Array [JStr salary_id; JStr gift_id] in
  deleteMultipleTransactionsController ids (JStr alice)
    (snd (deleteMultipleTransactionsController ids (JStr alice) sample_db))
  = (json_message 404 false "No transactions found to delete",
     snd (deleteMultipleTransactionsController ids (JStr alice) sample_db)).
Proof.
  apply (deleteMany_twice (Array [JStr salary_id; JStr gift_id]) (JStr alice)
           sample_db).
  vm_compute. reflexivity.
Defined.

Lemma sample_ids_canonical : Forall canonical_id [JStr salary_id; JStr gift_id].
Proof.
  repeat constructor; intros k Hk; vm_compute in Hk; by injection Hk as <-.
Qed.

Lemma deleteMany_preserves_refs_consistent_witness :
  refs_consistent
    (snd (deleteMultipleTransactionsController
            (Array [JStr salary_id; JStr gift_id]) (JStr alice) sample_db)).
Proof.
  apply deleteMany_preserves_refs_consistent.
  - exact sample_db_refs_consistent.
  - exact sample_ids_canonical.
Defined.

(** Alice lists her salary, in upper case, and Bob's gift: afterwards she
    no longer reads the salary and still reads the rent. *)
Lemma deleteMany_then_getOne_witness :
  let ids := [JStr "65B2A7D9E4B0A1B2C3D4E601"; JStr gift_id] in
  let after := snd (deleteMultipleTransactionsController (Array ids) (JStr alice)
                      sample_db) in
  getSingleTransactionController salary_id (JStr alice) after
  = json_message 404 false "Transaction not found"
  ∧ getSingleTransactionController rent_id (JStr alice) after
    = mkResponse 200 (OneTransaction true (rent_id, rent)).
Proof.
  cbv zeta.
  assert (id_in [JStr "65B2A7D9E4B0A1B2C3D4E601"; JStr gift_id] salary_id = true)
    as Hin by (vm_compute; reflexivity).
  assert (id_in [JStr "65B2A7D9E4B0A1B2C3D4E601"; JStr gift_id] rent_id = false)
    as Hout by (vm_compute; reflexivity).
  split.
  - rewrite <- (f_equal (λ b : bool,
                           if b then json_message 404 false "Transaction not found"
                           else mkResponse 200 (OneTransaction true (salary_id, salary)))
                  Hin).
    apply (deleteMany_then_getOne [JStr "65B2A7D9E4B0A1B2C3D4E601"; JStr gift_id]
             (JStr alice) sample_db alice (mkUser [salary_id; rent_id])
             salary_id salary).
    + vm_compute. reflexivity.
    + vm_compute. reflexivity.
    + discriminate.
    + reflexivity.
    + vm_compute. reflexivity.
    + vm_compute. reflexivity.
    + reflexivity.
  - rewrite <- (f_equal (λ b : bool,
                           if b then json_message 404 false "Transaction not found"
                           else mkResponse 200 (OneTransaction true (rent_id, rent)))
                  Hout).
    apply (deleteMany_then_getOne [JStr "65B2A7D9E4B0A1B2C3D4E601"; JStr gift_id]
             (JStr alice) sample_db alice (mkUser [salary_id; rent_id])
             rent_id rent).
    + vm_compute. reflexivity.
    + vm_compute. reflexivity.
    + discriminate.
    + reflexivity.
    + vm_compute. reflexivity.
    + vm_compute. reflexivity.
    + reflexivity.
Defined.

(** X23.  The query casts the listed values, the clean-up of the references
    compares strings: Alice lists her salary with its identifier in upper
    case; the salary is deleted and reported, her reference to it stays, and
    the store, consistent before, no longer is. *)
Theorem deleteMany_upper_case_id_keeps_reference :
  let ids := [JStr "65B2A7D9E4B0A1B2C3D4E601"] in
  let result := deleteMultipleTransactionsController (Array ids) (JStr alice) sample_db in
  refs_consistent sample_db
  ∧ as_id (JStr "65B2A7D9E4B0A1B2C3D4E601") = Some salary_id
  ∧ fst result = json_message 200 true "Successfully deleted 1 transactions"
  ∧ Transactions (snd result) !! salary_id = None
  ∧ Users (snd result) !! alice = Some (mkUser [salary_id; rent_id])
  ∧ ¬ refs_consistent (snd result).
Proof.
  cbv zeta. split; [exact sample_db_refs_consistent|].
  repeat split; try (vm_compute; reflexivity).
  intros Hinv.
  destruct (Hinv alice (mkUser [salary_id; rent_id]) salary_id)
    as (t & Ht & _).
  - vm_compute. reflexivity.
  - apply list_elem_of_here.
  - vm_compute in Ht. discriminate Ht.
Qed.

End MoreDeleteManyRuns.

(** ** More on update *)

Lemma db_eta db : mkDb (Users db) (Transactions db) = db.
Proof. by destruct db. Qed.

Section MoreUpdate.
Context `{H : Host}.

(** An update that does not find its transaction leaves the store alone. *)
Lemma update_not_found id new_title new_amount new_description new_date
    new_category new_type db :
  findById (Transactions db) (JStr id) = None →
  snd (updateTransactionController id new_title new_amount new_description
         new_date new_category new_type db) = db.
Proof.
  intros Hf.
  destruct (update_outcome id new_title new_amount new_description new_date
              new_category new_type db)
    as [(_ & _ & Hdb)|(k & t & t' & Hf' & _)]; [done|congruence].
Qed.

(** X15.  An update that supplies no truthy value for any field (an empty
    body, or only empty strings, zeros, nulls and the like) is answered with
    200 and the stored transaction, and the store is exactly as before. *)
Theorem update_without_fields
    id new_title new_amount new_description new_date new_category new_type db k t :
  as_id (JStr id) = Some k →
  Transactions db !! k = Some t →
  truthy new_title = false → truthy new_amount = false →
  truthy new_description = false → truthy new_date = false →
  truthy new_category = false → truthy new_type = false →
  updateTransactionController id new_title new_amount new_description new_date
    new_category new_type db
  = (mkResponse 200
       (MessageAndTransaction true "Transaction Updated Successfully" (k, t)),
     db).
Proof.
  intros Hk Ht H1 H2 H3 H4 H5 H6.
  assert (findById (Transactions db) (JStr id) = Some (k, t)) as Hf
    by (by apply findById_Some).
  rewrite (update_found _ _ _ _ _ _ _ _ _ _ Hf). cbv zeta.
  rewrite H1, H2, H3, H4, H5, H6. rewrite (insert_id _ _ _ Ht).
  by rewrite db_eta.
Qed.

(** X16.  An update is idempotent: sending the same request again gives the
    same answer and the same store as sending it once. *)
Theorem update_idempotent
    id new_title new_amount new_description new_date new_category new_type db :
  let once :=
    updateTransactionController id new_title new_amount new_description
      new_date new_category new_type db in
  updateTransactionController id new_title new_amount new_description new_date
    new_category new_type (snd once)
  = once.
Proof.
  intros once. unfold once.
  destruct (findById (Transactions db) (JStr id)) as [[k t]|] eqn:Hf.
  2:{ by rewrite (update_not_found _ _ _ _ _ _ _ _ Hf). }
  pose proof (proj1 (findById_Some _ _ _ _) Hf) as [Hk _].
  assert (∀ t',
            findById
              (Transactions (mkDb (Users db) (<[k := t']> (Transactions db))))
              (JStr id) = Some (k, t')) as Hf'.
  { intros t'. apply findById_Some. split; [done|]. apply lookup_insert_eq. }
  rewrite (update_found id new_title new_amount new_description new_date
             new_category new_type db k t Hf). cbv zeta.
  destruct (truthy new_date) eqn:Hd.
  - destruct (castDate new_date) as [ms|] eqn:Hms.
    + cbn [snd]. rewrite (update_found _ _ _ _ _ _ _ _ _ _ (Hf' _)). cbv zeta.
      rewrite Hd, Hms. cbn [Users Transactions]. rewrite insert_insert_eq.
      by destruct (truthy new_title), (truthy new_description),
        (truthy new_amount), (truthy new_category), (truthy new_type).
    + cbn [snd]. rewrite (update_found _ _ _ _ _ _ _ _ _ _ Hf). cbv zeta.
      by rewrite Hd, Hms.
  - cbn [snd]. rewrite (update_found _ _ _ _ _ _ _ _ _ _ (Hf' _)). cbv zeta.
    rewrite Hd. cbn [Users Transactions]. rewrite insert_insert_eq.
    by destruct (truthy new_title), (truthy new_description),
      (truthy new_amount), (truthy new_category), (truthy new_type).
Qed.

(** X17.  An update never touches the User collection, never adds or
    removes a transaction, changes no transaction but the one its identifier
    casts to and never changes an owner; so it keeps the reference
    invariant. *)
Theorem update_frame
    id new_title new_amount new_description new_date new_category new_type db :
  let after :=
    snd (updateTransactionController id new_title new_amount new_description
           new_date new_category new_type db) in
  Users after = Users db
  ∧ (∀ k, as_id (JStr id) ≠ Some k →
          Transactions after !! k = Transactions db !! k)
  ∧ (∀ k t', Transactions after !! k = Some t' →
             ∃ t, Transactions db !! k = Some t ∧ user t' = user t)
  ∧ (∀ k t, Transactions db !! k = Some t →
            ∃ t', Transactions after !! k = Some t' ∧ user t' = user t)
  ∧ (refs_consistent db → refs_consistent after).
Proof.
  intros after.
  destruct (update_outcome id new_title new_amount new_description new_date
              new_category new_type db)
    as [(_ & _ & Hdb)|(k0 & t0 & t0' & Hf & Ho & E)].
  { unfold after. rewrite Hdb. repeat split; try done.
    - intros k t' Ht'. by exists t'.
    - intros k t Ht. by exists t. }
  apply findById_Some in Hf as [Hk0 Ht0].
  assert (Users after = Users db) as HU by (unfold after; by rewrite E).
  assert (Transactions after = <[k0 := t0']> (Transactions db)) as HT
    by (unfold after; by rewrite E).
  assert (∀ k t, Transactions db !! k = Some t →
            ∃ t', Transactions after !! k = Some t' ∧ user t' = user t) as Hfwd.
  { intros k t Ht. rewrite HT. destruct (decide (k = k0)) as [->|Hk].
    - exists t0'. rewrite lookup_insert_eq. split; [done|]. congruence.
    - exists t. by rewrite lookup_insert_ne. }
  repeat split; [done| | |done|].
  - intros k Hk. rewrite HT. apply lookup_insert_ne. congruence.
  - intros k t' Ht'. rewrite HT in Ht'. destruct (decide (k = k0)) as [->|Hk].
    + rewrite lookup_insert_eq in Ht'. injection Ht' as <-. by exists t0.
    + rewrite lookup_insert_ne in Ht' by done. by exists t'.
  - intros Hinv uid u k Hu Hk. rewrite HU in Hu.
    destruct (Hinv uid u k Hu Hk) as (t & Ht & Hown).
    destruct (Hfwd k t Ht) as (t' & Ht' & Ho'). exists t'. split; [done|].
    congruence.
Qed.

(** X18.  After an update of a stored transaction its owner reads back, by
    identifier, the document as the update left it: the very document the
    update answered with when it was saved, which is the case whenever a
    truthy date can be cast, and the prior document when it was refused. *)
Theorem update_then_getOne
    id userId new_title new_amount new_description new_date new_category
    new_type db k t :
  id ≠ "" → truthy userId = true →
  as_id (JStr id) = Some k →
  Transactions db !! k = Some t → owned_by userId t →
  let result :=
    updateTransactionController id new_title new_amount new_description
      new_date new_category new_type db in
  ∃ t',
    getSingleTransactionController id userId (snd result)
    = mkResponse 200 (OneTransaction true (k, t'))
    ∧ (success_of (fst result) = true →
       result
       = (mkResponse 200
            (MessageAndTransaction true "Transaction Updated Successfully"
               (k, t')),
          mkDb (Users db) (<[k := t']> (Transactions db))))
    ∧ (success_of (fst result) = false → t' = t ∧ snd result = db)
    ∧ ((truthy new_date = true → is_Some (castDate new_date)) →
       success_of (fst result) = true).
Proof.
  intros Hid Hu Hk Ht Ho result.
  assert (findById (Transactions db) (JStr id) = Some (k, t)) as Hf
    by (by apply findById_Some).
  assert (∀ t', user t' = user t →
            getSingleTransactionController id userId
              (mkDb (Users db) (<[k := t']> (Transactions db)))
            = mkResponse 200 (OneTransaction true (k, t'))) as Hget.
  { intros t' Hown.
    apply getOne_own_record; [done|done|done|apply lookup_insert_eq|].
    unfold owned_by in *. by rewrite Hown. }
  unfold result. rewrite (update_found _ _ _ _ _ _ _ _ _ _ Hf). cbv zeta.
  destruct (truthy new_date) eqn:Hd; [destruct (castDate new_date) as [ms|] eqn:Hms|].
  - eexists. cbn [fst snd success_of body]. split; [|done].
    apply Hget.
    by destruct (truthy new_title), (truthy new_description),
      (truthy new_amount), (truthy new_category), (truthy new_type).
  - exists t. cbn [fst snd success_of body]. split.
    + by apply getOne_own_record.
    + split; [done|]. split; [done|]. intros Hdate.
      destruct (Hdate eq_refl) as [ms [=]].
  - eexists. cbn [fst snd success_of body]. split; [|done].
    apply Hget.
    by destruct (truthy new_title), (truthy new_description),
      (truthy new_amount), (truthy new_category), (truthy new_type).
Qed.

(** X19.  Update does not repeat the checks of create: an amount that is
    truthy but not a positive number (a negative number, a text) is refused
    by every create and stored as it is by an update. *)
Theorem update_bypasses_amount_validation v id db k t :
  truthy v = true → ¬ positive_number v →
  as_id (JStr id) = Some k →
  Transactions db !! k = Some t →
  (∀ title description date category userId transactionType newId,
     status (fst (addTransactionController title v description date category
                    userId transactionType newId db)) = 400)
  ∧ updateTransactionController id JUndefined v JUndefined JUndefined JUndefined
      JUndefined db
    = (mkResponse 200
         (MessageAndTransaction true "Transaction Updated Successfully"
            (k, set_amount v t)),
       mkDb (Users db) (<[k := set_amount v t]> (Transactions db))).
Proof.
  intros Hv Hneg Hk Ht. split.
  - intros title description date category userId transactionType newId.
    rewrite <- not_a_positive_number_false in Hneg.
    unfold addTransactionController, try_addTransaction.
    destruct (not_a_non_empty_string title); [done|].
    by destruct (not_a_positive_number v).
  - assert (findById (Transactions db) (JStr id) = Some (k, t)) as Hf
      by (by apply findById_Some).
    rewrite (update_found _ _ _ _ _ _ _ _ _ _ Hf). cbv zeta. cbn [truthy].
    by rewrite Hv.
Qed.

End MoreUpdate.

Section MoreUpdateRuns.
Local Existing Instance utc_host.

Lemma update_without_fields_witness :
  updateTransactionController rent_id (JStr "") (JNum (num_of_Z 0)) JUndefined
    JNull (JBool false) (JNum JNaN) sample_db
  = (mkResponse 200
       (MessageAndTransaction true "Transaction Updated Successfully"
          (rent_id, rent)),
     sample_db).
Proof.
  apply (update_without_fields rent_id (JStr "") (JNum (num_of_Z 0)) JUndefined
           JNull (JBool false) (JNum JNaN) sample_db rent_id rent);
    vm_compute; reflexivity.
Defined.

Lemma update_then_getOne_witness :
  let result :=
    updateTransactionController rent_id (JStr "Flat") JUndefined JUndefined
      (JStr "2024-01-16") JUndefined JUndefined sample_db in
  ∃ t',
    getSingleTransactionController rent_id (JStr alice) (snd result)
    = mkResponse 200 (OneTransaction true (rent_id, t'))
    ∧ (success_of (fst result) = true →
       result
       = (mkResponse 200
            (MessageAndTransaction true "Transaction Updated Successfully"
               (rent_id, t')),
          mkDb (Users sample_db) (<[rent_id := t']> (Transactions sample_db))))
    ∧ (success_of (fst result) = false → t' = rent ∧ snd result = sample_db)
    ∧ ((truthy (JStr "2024-01-16") = true →
        is_Some (castDate (JStr "2024-01-16"))) →
       success_of (fst result) = true).
Proof.
  apply (update_then_getOne rent_id (JStr alice) (JStr "Flat") JUndefined
           JUndefined (JStr "2024-01-16") JUndefined JUndefined sample_db
           rent_id rent).
  - discriminate.
  - reflexivity.
  - vm_compute. reflexivity.
  - vm_compute. reflexivity.
  - vm_compute. reflexivity.
Defined.

Lemma update_bypasses_amount_validation_witness :
  (∀ title description date category userId transactionType newId,
     status (fst (addTransactionController title
                    (JNum (num_of_Z (-5))) description date category userId
                    transactionType newId sample_db)) = 400)
  ∧ updateTransactionController rent_id JUndefined (JNum (num_of_Z (-5)))
      JUndefined JUndefined JUndefined JUndefined sample_db
    = (mkResponse 200
         (MessageAndTransaction true "Transaction Updated Successfully"
            (rent_id, set_amount (JNum (num_of_Z (-5))) rent)),
       mkDb (Users sample_db)
         (<[rent_id := set_amount (JNum (num_of_Z (-5))) rent]>
            (Transactions sample_db))).
Proof.
  apply (update_bypasses_amount_validation
           (JNum (num_of_Z (-5))) rent_id sample_db rent_id rent).
  - reflexivity.
  - vm_compute. intros Hq. discriminate Hq.
  - vm_compute. reflexivity.
  - vm_compute. reflexivity.
Defined.

End MoreUpdateRuns.

(** ** More on getOne *)

Section MoreGetOne.
Context `{H : Host}.

(** X20.  A single read is answered with 400 when the identifier or the user
    is missing, whatever the store holds.  Otherwise, when the identifier or
    the user cannot be cast, it is answered with the 500 of the catch block;
    and when both can, it is answered with 200 and a transaction exactly when
    that transaction is stored under the identifier and owned by the user,
    and with 404 exactly when there is none. *)
Theorem getOne_answers id userId db :
  (id = "" ∨ truthy userId = false →
   getSingleTransactionController id userId db
   = json_message 400 false "Transaction ID and User ID are required")
  ∧ (id ≠ "" → truthy userId = true →
     (cast_fails (JStr id) = true →
      getSingleTransactionController id userId db
      = json_message 500 false
          (err_message (CastError "ObjectId" (JStr id) "_id" "Transaction")))
     ∧ (cast_fails (JStr id) = false → cast_fails userId = true →
        getSingleTransactionController id userId db
        = json_message 500 false
            (err_message (CastError "ObjectId" userId "user" "Transaction")))
     ∧ (cast_fails (JStr id) = false → cast_fails userId = false →
        (∀ k t, getSingleTransactionController id userId db
                = mkResponse 200 (OneTransaction true (k, t))
                ↔ as_id (JStr id) = Some k
                  ∧ Transactions db !! k = Some t ∧ owned_by userId t)
        ∧ ((∀ k t, as_id (JStr id) = Some k → Transactions db !! k = Some t →
                   ¬ owned_by userId t)
           ↔ getSingleTransactionController id userId db
             = json_message 404 false "Transaction not found"))).
Proof.
  unfold getSingleTransactionController, await_findOne. split.
  - intros [-> | ->]; [done|]. by rewrite orb_true_r.
  - intros Hid Hu. apply String.eqb_neq in Hid. rewrite Hid, Hu. simpl.
    split; [by intros ->|]. split; [by intros -> ->|]. intros -> ->.
    unfold findById.
    destruct (as_id (JStr id)) as [k0|] eqn:Hk0.
    2:{ split.
        - intros k t. split; [done|]. by intros [[=] _].
        - split; [done|]. by intros _ k t [=]. }
    destruct (Transactions db !! k0) as [t0|] eqn:E.
    + destruct (owner_matches userId t0) eqn:O.
      * apply owner_matches_true in O. split.
        -- intros k t. split.
           ++ by intros [= <- <-].
           ++ intros ([= <-] & Ht & _). rewrite E in Ht. by injection Ht as <-.
        -- split; [intros Hno; by destruct (Hno k0 t0)|done].
      * assert (¬ owned_by userId t0) as Hn.
        { intros Ho. apply owner_matches_true in Ho. congruence. }
        split.
        -- intros k t. split; [done|].
           intros ([= <-] & Ht & Ho). rewrite E in Ht. by injection Ht as <-.
        -- split; [done|]. intros _ k t [= <-] Ht.
           rewrite E in Ht. by injection Ht as <-.
    + split.
      * intros k t. split; [done|].
        intros ([= <-] & Ht & _). by rewrite E in Ht.
      * split; [done|]. intros _ k t [= <-] Ht. by rewrite E in Ht.
Qed.

End MoreGetOne.
